(** * Upload widget: a shallow embedding of [script.js] and of its second variant

    The repository ships two client scripts for the upload page:
    [script.js] (drop area, file summary with a human-readable size, remove
    button, simulated progress driven by [setInterval]) and a shorter variant
    (drop zone, [showFile], submit listener).  Both are event handlers over a
    handful of DOM elements; they are embedded here as state transformers over
    a record that holds exactly the DOM properties the scripts read or write.

    Numbers.  File sizes are non-negative integers ([File.size]) and are
    modelled in [N].  The divisions [bytes / Math.pow(1024, i)] and
    [file.size / 1024] divide by a power of two and are therefore exact on
    doubles; [toFixed(2)] rounds the
    exact value to hundredths, ties upwards.  The quotient
    [Math.log(bytes) / Math.log(k)] is a quotient of doubles.  Below 1024^4
    its floor is the floor of the base-1024 logarithm, [floor_log_k]; from
    1024^4 on it can be one ahead (it is exactly 5.0 already at 2^50 - 3), and
    statements about such sizes take the floored quotient as a parameter
    constrained by [DoubleIndex].  The progress counter is a double; it is modelled by a
    rational together with a rounding function [rnd] applied after every
    arithmetic operation, of which only monotonicity and idempotence are ever
    assumed. *)

From Stdlib Require Import NArith ZArith QArith Qround Lqa DecimalString.
From stdpp Require Import base numbers list strings gmap.

(** ** JavaScript values shared by both scripts *)

Module JS.

(** A [File] as the scripts see it. *)
Record File := mkFile { name : string; size : N; type : string }.

(** An event object: the dropped files ([e.dataTransfer.files]) and the two
    flags that [preventDefault] and [stopPropagation] set. *)
Record Event := mkEvent {
  dataTransfer_files : list File;
  defaultPrevented : bool;
  propagationStopped : bool
}.

Definition preventDefault (e : Event) : Event :=
  mkEvent (dataTransfer_files e) true (propagationStopped e).

Definition stopPropagation (e : Event) : Event :=
  mkEvent (dataTransfer_files e) (defaultPrevented e) true.

(** Decimal rendering of a non-negative integer. *)
Definition dec (n : N) : string := NilZero.string_of_uint (N.to_uint n).

(** [x.toFixed(2)] for the exact value x = num/den: the integer h for which
    h/100 is nearest to x, the larger one on a tie, i.e.
    floor(100 x + 1/2). *)
Definition round2 (num den : N) : N := ((200 * num + den) / (2 * den))%N.

(** The string [x.toFixed(2)] returns: always two fractional digits. *)
Definition toFixed2 (num den : N) : string :=
  let h := round2 num den in
  dec (h / 100) +:+ "." +:+ dec (h mod 100 / 10) +:+ dec (h mod 10).

(** String conversion of the Number h/100 (as in [n + ' ']): the shortest
    decimal, so trailing zeros of the fraction are dropped. *)
Definition number_to_string (h : N) : string :=
  if (h mod 100 =? 0)%N then dec (h / 100)
  else if (h mod 10 =? 0)%N then dec (h / 100) +:+ "." +:+ dec (h mod 100 / 10)
  else dec (h / 100) +:+ "." +:+ dec (h mod 100 / 10) +:+ dec (h mod 10).

(** String conversion of a possibly missing array element: [undefined]
    concatenates as the text "undefined". *)
Definition string_of_element (o : option string) : string :=
  match o with
  | Some s => s
  | None => "undefined"
  end.

(** The double-quote character, as a one-character string. *)
Definition dquote : string := String (Ascii.ascii_of_nat 34) EmptyString.

(** [fileInput.value] of a file input: the fake path of the first selected
    file, or the empty string. *)
Definition input_value (files : list File) : string :=
  match files with
  | [] => ""
  | f :: _ => "C:\fakepath\" +:+ name f
  end.

End JS.

Import JS.

(** ** Size formatting of [script.js] *)

Definition k : N := 1024.

Definition sizes : list string := ["Bytes"; "KB"; "MB"; "GB"].

(** [Math.floor(Math.log(bytes) / Math.log(k))] with k = 2^10, as the floor
    of the base-1024 logarithm.  The floored quotient of doubles agrees with
    it below 1024^4 ([double_index_below_k4]). *)
Definition floor_log_k (bytes : N) : N := (N.log2 bytes / N.log2 k)%N.

(** [formatFileSize], lines 69-75. *)
Definition formatFileSize (bytes : N) : string :=
  if (bytes =? 0)%N then "0 Bytes"
  else
    let i := floor_log_k bytes in
    number_to_string (round2 bytes (k ^ i)) +:+ " "
      +:+ string_of_element (sizes !! N.to_nat i).


(** ** [script.js] *)

Module Script.

(** A timer created by [setInterval]: its handle, its delay in
    milliseconds, and the closure variable [progress] of its callback. *)
Record Interval := mkInterval { handle : N; delay : N; progress : Q }.

(** The page as [script.js] sees it.  [props] holds the string-valued DOM
    properties the script assigns (inline styles, text contents, dataset
    entries), keyed by the script's own variable name followed by the
    property path; a key that is absent has not been assigned by the script.
    The remaining fields are the properties that are not strings, the
    window's timer table, and the effects of [alert] and [appendChild].
    [progressBar_width] is the number p of the width [p + '%'], or [None]
    while the script has not set a width.  Style sheets appended to the
    document head and the position of a tooltip are layout only and are left
    out. *)
Record Page := mkPage {
  props : gmap string string;
  fileInput_files : list File;
  submitBtn_disabled : bool;
  progressBar_width : option Q;
  ai_options : list bool;
  alerts : list string;
  body_tooltips : list string;
  intervals : list Interval;
  next_handle : N
}.

Definition set_prop (key v : string) (st : Page) : Page :=
  mkPage (<[key := v]> (props st)) (fileInput_files st) (submitBtn_disabled st)
    (progressBar_width st) (ai_options st) (alerts st) (body_tooltips st)
    (intervals st) (next_handle st).

Definition set_files (fs : list File) (st : Page) : Page :=
  mkPage (props st) fs (submitBtn_disabled st) (progressBar_width st)
    (ai_options st) (alerts st) (body_tooltips st) (intervals st) (next_handle st).

Definition set_disabled (b : bool) (st : Page) : Page :=
  mkPage (props st) (fileInput_files st) b (progressBar_width st)
    (ai_options st) (alerts st) (body_tooltips st) (intervals st) (next_handle st).

Definition set_width (w : Q) (st : Page) : Page :=
  mkPage (props st) (fileInput_files st) (submitBtn_disabled st) (Some w)
    (ai_options st) (alerts st) (body_tooltips st) (intervals st) (next_handle st).

Definition set_ai_options (cs : list bool) (st : Page) : Page :=
  mkPage (props st) (fileInput_files st) (submitBtn_disabled st) (progressBar_width st)
    cs (alerts st) (body_tooltips st) (intervals st) (next_handle st).

Definition alert (msg : string) (st : Page) : Page :=
  mkPage (props st) (fileInput_files st) (submitBtn_disabled st) (progressBar_width st)
    (ai_options st) (alerts st ++ [msg]) (body_tooltips st) (intervals st) (next_handle st).

Definition appendTooltip (text : string) (st : Page) : Page :=
  mkPage (props st) (fileInput_files st) (submitBtn_disabled st) (progressBar_width st)
    (ai_options st) (alerts st) (body_tooltips st ++ [text]) (intervals st) (next_handle st).

Definition set_intervals (ts : list Interval) (st : Page) : Page :=
  mkPage (props st) (fileInput_files st) (submitBtn_disabled st) (progressBar_width st)
    (ai_options st) (alerts st) (body_tooltips st) ts (next_handle st).

(** [setInterval(callback, ms)]: registers a timer under a fresh handle and
    returns the handle.  The callback's captured [progress] starts at [p0]. *)
Definition setInterval (ms : N) (p0 : Q) (st : Page) : N * Page :=
  let h := next_handle st in
  (h, mkPage (props st) (fileInput_files st) (submitBtn_disabled st)
        (progressBar_width st) (ai_options st) (alerts st) (body_tooltips st)
        (intervals st ++ [mkInterval h ms p0]) (h + 1)%N).

(** [fileInput.value = ''] on a file input empties the list of selected
    files (the only assignment to [value] the script makes). *)
Definition reset_fileInput_value (st : Page) : Page := set_files [] st.

Definition fileInput_value (st : Page) : string := input_value (fileInput_files st).

(** *** Drag and drop, lines 9-53 *)

Definition preventDefaults (e : Event) (st : Page) : Event * Page :=
  (stopPropagation (preventDefault e), st).

Definition highlight (e : Event) (st : Page) : Event * Page :=
  (e, set_prop "dropArea.style.backgroundColor" "#f8fafc"
        (set_prop "dropArea.style.borderColor" "#2563eb" st)).

Definition unhighlight (e : Event) (st : Page) : Event * Page :=
  (e, set_prop "dropArea.style.backgroundColor" ""
        (set_prop "dropArea.style.borderColor" "#e2e8f0" st)).

(** [updateFileInfo], lines 62-67. *)
Definition updateFileInfo (file : File) (st : Page) : Page :=
  set_prop "uploadPrompt.style.display" "none"
    (set_prop "fileInfo.style.display" "flex"
      (set_prop "fileSize.textContent" (formatFileSize (size file))
        (set_prop "fileName.textContent" (name file) st))).

(** [handleFiles], lines 47-53: [files.length > 0] guards [files[0]]. *)
Definition handleFiles (files : list File) (st : Page) : Page :=
  match files with
  | [] => st
  | file :: _ => set_files files (updateFileInfo file st)
  end.

Definition handleDrop (e : Event) (st : Page) : Event * Page :=
  (e, handleFiles (dataTransfer_files e) st).

(** Listeners run in the order in which they were added. *)
Definition dispatch (ls : list (Event -> Page -> Event * Page))
    (e : Event) (st : Page) : Event * Page :=
  foldl (fun acc l => l acc.1 acc.2) (e, st) ls.

Definition on_dragenter := dispatch [preventDefaults; highlight].
Definition on_dragover := dispatch [preventDefaults; highlight].
Definition on_dragleave := dispatch [preventDefaults; unhighlight].
Definition on_drop := dispatch [preventDefaults; unhighlight; handleDrop].

(** The [change] listener of the file input, lines 56-60. *)
Definition on_change (st : Page) : Page :=
  match fileInput_files st with
  | [] => st
  | file :: _ => updateFileInfo file st
  end.

(** The [click] listener of the remove button, lines 78-83. *)
Definition on_remove_click (e : Event) (st : Page) : Event * Page :=
  (stopPropagation e,
   set_prop "uploadPrompt.style.display" "block"
     (set_prop "fileInfo.style.display" "none"
       (reset_fileInput_value st))).

(** *** Form submission and simulated progress, lines 93-121 *)

Section Progress.

(** Rounding of a real result to a double. *)
Variable rnd : Q -> Q.

(** [progress += Math.random() * 10; if (progress > 90) progress = 90],
    where [r] is the value [Math.random()] returned. *)
Definition tick_progress (progress r : Q) : Q :=
  let p := rnd (progress + rnd (r * 10)) in
  if Qlt_le_dec 90 p then 90 else p.

(** [Math.round(x)]: floor(x + 1/2). *)
Definition Math_round (x : Q) : Z := Qfloor (x + (1 # 2))%Q.

Definition dec_int (z : Z) : string := NilZero.string_of_int (Z.to_int z).

(** The text chosen by lines 109-115. *)
Definition processing_text (progress : Q) : string :=
  if Qlt_le_dec progress 30 then "Validating file format..."
  else if Qlt_le_dec progress 60 then "Initializing AI agent..."
  else "Cleaning and enriching data...".

(** Lines 105-115: what the callback writes to the page. *)
Definition show_progress (progress : Q) (st : Page) : Page :=
  set_prop "processingText.textContent" (processing_text progress)
    (set_prop "progressText.textContent"
       (dec_int (Math_round progress) +:+ "% Complete")
       (set_width progress st)).

Definition advance (h : N) (r : Q) (t : Interval) : Interval :=
  if (handle t =? h)%N
  then mkInterval (handle t) (delay t) (tick_progress (progress t) r)
  else t.

(** One firing of the timer [h], [Math.random()] returning [r].  A handle
    that is not in the timer table does not fire. *)
Definition on_tick (h : N) (r : Q) (st : Page) : Page :=
  match find (fun t => (handle t =? h)%N) (intervals st) with
  | None => st
  | Some t =>
      show_progress (tick_progress (progress t) r)
        (set_intervals (map (advance h r) (intervals st)) st)
  end.

End Progress.

(** The [submit] listener, lines 94-120 (registered when the form exists,
    which a submission presupposes). *)
Definition on_submit (st : Page) : Page :=
  let st1 := set_prop "processingOverlay.style.display" "flex" st in
  let st2 := set_disabled true st1 in
  let '(progressInterval, st3) := setInterval 500 0 st2 in
  set_prop "uploadForm.dataset.progressInterval" (dec progressInterval) st3.

(** *** [loadSample], lines 124-150 *)

Definition sampleCSV : string :=
"name,address,phone,specialty,license,city
Dr. Amit Sharma,Near City Mall,987654,heart doctor,,Delhi
Dr. Priya Patel,14th Cross MG Road,8765432109,dermatologist,KA/12345/2020,Bangalore
Dr. Rajesh Kumar,City Hospital Andheri,7654321098,orthopedic surgeon,MH/67890/2019,Mumbai
Dr. Anjali Mehta,Green Park South Delhi,6543210987,pediatrician,DL/54321/2021,Delhi
Dr. Vikram Singh,Sector 17 Chandigarh,5432109876,neurologist,CH/98765/2018,Chandigarh".

Definition sample_file : File :=
  mkFile "sample_providers.csv" (N.of_nat (String.length sampleCSV)) "text/csv".

Definition loadSample (st : Page) : Page :=
  alert ("Sample data loaded! Click " +:+ dquote +:+ "Process with AI Agent"
           +:+ dquote +:+ " to see it in action.")
    (set_ai_options (map (fun _ => true) (ai_options st))
      (updateFileInfo sample_file (set_files [sample_file] st))).

(** *** Tooltips and page load, lines 153-226 *)

Definition tooltipId_key (el : string) : string := el +:+ ".dataset.tooltipId".

(** [mouseenter] on the element [el] whose [title] is [title]: a tooltip is
    appended to the body and the element's dataset receives the tooltip
    converted to a string. *)
Definition on_mouseenter (el title : string) (st : Page) : Page :=
  set_prop (tooltipId_key el) "[object HTMLDivElement]" (appendTooltip title st).

(** [mouseleave]: a non-empty dataset entry is a string, calling [remove]
    on it raises a TypeError and the listener ends there. *)
Definition on_mouseleave (el : string) (st : Page) : Page * option string :=
  match props st !! tooltipId_key el with
  | Some (String _ _) => (st, Some "TypeError")
  | _ => (st, None)
  end.

Definition on_DOMContentLoaded (has_logo : bool) (st : Page) : Page :=
  if has_logo then set_prop "logoIcon.style.animation" "pulse 2s infinite" st
  else st.

(** *** The page as a transition system

    One constructor per listener the script registers, plus the timer
    callback and [loadSample].  The inputs are not ordered: a [MouseEnter]
    is accepted whether or not [DOMContentLoaded] has registered the tooltip
    listeners, so the runs below include every run of the page. *)

Inductive Input :=
| DragEnter
| DragOver
| DragLeave
| Drop (files : list File)
| Pick (files : list File)
| RemoveClick
| Submit
| Tick (h : N) (r : Q)
| LoadSample
| MouseEnter (el title : string)
| MouseLeave (el : string)
| DOMContentLoaded (has_logo : bool).

Definition new_event (files : list File) : Event := mkEvent files false false.

(** The file picker stores the chosen files in the input, then [change]
    fires. *)
Definition pick (files : list File) (st : Page) : Page :=
  on_change (set_files files st).

Definition step (rnd : Q -> Q) (st : Page) (i : Input) : Page :=
  match i with
  | DragEnter => (on_dragenter (new_event []) st).2
  | DragOver => (on_dragover (new_event []) st).2
  | DragLeave => (on_dragleave (new_event []) st).2
  | Drop files => (on_drop (new_event files) st).2
  | Pick files => pick files st
  | RemoveClick => (on_remove_click (new_event []) st).2
  | Submit => on_submit st
  | Tick h r => on_tick rnd h r st
  | LoadSample => loadSample st
  | MouseEnter el title => on_mouseenter el title st
  | MouseLeave el => (on_mouseleave el st).1
  | DOMContentLoaded has_logo => on_DOMContentLoaded has_logo st
  end.

Definition run (rnd : Q -> Q) (st : Page) (inputs : list Input) : Page :=
  foldl (step rnd) st inputs.

(** [Math.random()] returns a double in [0, 1). *)
Definition valid_input (i : Input) : Prop :=
  match i with
  | Tick _ r => (0 <= r)%Q /\ (r < 1)%Q
  | _ => True
  end.

(** A freshly loaded page: nothing assigned by the script yet, no timer. *)
Definition fresh (checkboxes : list bool) : Page :=
  mkPage ∅ [] false None checkboxes [] [] [] 1.

End Script.

(** ** The second variant of the upload script *)

Module Part000.

(** The page as the variant sees it: whether the drop zone carries the class
    [dragging], the files of the input, the markup of the selected-file
    container, the display of the progress container, how often the file
    picker was opened by [fileInput.click()], and the window's timer table
    (handle and delay of every repeating timer). *)
Record Page := mkPage {
  dropZone_dragging : bool;
  fileInput_files : list File;
  selectedFileContainer_innerHTML : string;
  progressContainer_display : string;
  picker_opened : nat;
  intervals : list (N * N)
}.

(** How a listener ends: normally, or by an uncaught exception. *)
Inductive Completion := Normal | Throw (error : string).

Definition set_dragging (b : bool) (st : Page) : Page :=
  mkPage b (fileInput_files st) (selectedFileContainer_innerHTML st)
    (progressContainer_display st) (picker_opened st) (intervals st).

Definition set_files (fs : list File) (st : Page) : Page :=
  mkPage (dropZone_dragging st) fs (selectedFileContainer_innerHTML st)
    (progressContainer_display st) (picker_opened st) (intervals st).

Definition set_innerHTML (html : string) (st : Page) : Page :=
  mkPage (dropZone_dragging st) (fileInput_files st) html
    (progressContainer_display st) (picker_opened st) (intervals st).

Definition set_progress_display (d : string) (st : Page) : Page :=
  mkPage (dropZone_dragging st) (fileInput_files st)
    (selectedFileContainer_innerHTML st) d (picker_opened st) (intervals st).

Definition open_picker (st : Page) : Page :=
  mkPage (dropZone_dragging st) (fileInput_files st)
    (selectedFileContainer_innerHTML st) (progressContainer_display st)
    (S (picker_opened st)) (intervals st).

(** [showFile], lines 36-40.  The argument is [undefined] when the list it
    was read from is empty; reading [file.size] then raises a TypeError. *)
Definition showFile (file : option File) (st : Page) : Page * Completion :=
  match file with
  | None => (st, Throw "TypeError")
  | Some f =>
      let size := toFixed2 (JS.size f) 1024 in
      (set_innerHTML ("<strong>" +:+ name f +:+ "</strong> (" +:+ size +:+ " KB)") st,
       Normal)
  end.

(** The listeners of lines 8-21, in the order in which they were added. *)
Definition prevent (e : Event) : Event := stopPropagation (preventDefault e).

Definition on_dragenter (e : Event) (st : Page) : Event * Page :=
  (prevent e, set_dragging true st).

Definition on_dragover (e : Event) (st : Page) : Event * Page :=
  (prevent e, set_dragging true st).

Definition on_dragleave (e : Event) (st : Page) : Event * Page :=
  (prevent e, set_dragging false st).

(** The [drop] listeners: lines 8-13, 19-21, then lines 23-26. *)
Definition on_drop (e : Event) (st : Page) : Event * (Page * Completion) :=
  let st1 := set_dragging false st in
  let st2 := set_files (dataTransfer_files e) st1 in
  (prevent e, showFile (fileInput_files st2 !! 0%nat) st2).

(** Line 28. *)
Definition on_click (st : Page) : Page := open_picker st.

(** Lines 30-34. *)
Definition on_change (st : Page) : Page * Completion :=
  if (0 <? length (fileInput_files st))%nat
  then showFile (fileInput_files st !! 0%nat) st
  else (st, Normal).

(** Lines 42-44. *)
Definition on_submit (st : Page) : Page :=
  set_progress_display "flex" st.

Inductive Input :=
| DragEnter
| DragOver
| DragLeave
| Drop (files : list File)
| Click
| Pick (files : list File)
| Submit.

Definition step (st : Page) (i : Input) : Page :=
  match i with
  | DragEnter => (on_dragenter (mkEvent [] false false) st).2
  | DragOver => (on_dragover (mkEvent [] false false) st).2
  | DragLeave => (on_dragleave (mkEvent [] false false) st).2
  | Drop files => (on_drop (mkEvent files false false) st).2.1
  | Click => on_click st
  | Pick files => (on_change (set_files files st)).1
  | Submit => on_submit st
  end.

Definition fresh : Page := mkPage false [] "" "" 0 [].

End Part000.

(** ** The size format as the specification words it

    Unit labels Bytes, KB, MB, GB; the value is divided by 1024 once per unit
    step; the largest unit whose scaled value is at least 1 is selected; the
    scaled value is rounded to two decimals; zero bytes read "0 Bytes". *)

Definition spec_units : list string := ["Bytes"; "KB"; "MB"; "GB"].

(** The largest index i of a unit with bytes / 1024^i >= 1 (0 if there is
    none). *)
Definition spec_unit_index (bytes : N) : nat :=
  List.last
    (List.filter (fun i => (1024 ^ N.of_nat i <=? bytes)%N) (seq 0 (length spec_units)))
    0%nat.

Definition spec_formatFileSize (bytes : N) : string :=
  if (bytes =? 0)%N then "0 Bytes"
  else
    let i := spec_unit_index bytes in
    number_to_string (round2 bytes (1024 ^ N.of_nat i)) +:+ " "
      +:+ string_of_element (spec_units !! i).

(** ** The unit index on doubles

    [formatFileSize] floors a quotient of two doubles.  [formatFileSize_double]
    is the function with that floored quotient as the parameter [idx], and
    [DoubleIndex] states what is used of it: the floored quotient does not
    decrease when the size grows, and at the powers 1024, ..., 1024^4 and
    just before them it is the exact one (the quotient is exactly 1.0, 2.0,
    3.0, 4.0 at the powers and stays below these one byte earlier). *)

Definition formatFileSize_double (idx : N -> N) (bytes : N) : string :=
  if (bytes =? 0)%N then "0 Bytes"
  else
    let i := idx bytes in
    number_to_string (round2 bytes (k ^ i)) +:+ " "
      +:+ string_of_element (sizes !! N.to_nat i).

Record DoubleIndex (idx : N -> N) : Prop := mkDoubleIndex {
  idx_mono : forall a b, (0 < a)%N -> (a <= b)%N -> (idx a <= idx b)%N;
  idx_pow : forall i, (1 <= i <= 4)%N -> idx (k ^ i)%N = i;
  idx_pred : forall i, (1 <= i <= 4)%N -> idx (k ^ i - 1)%N = (i - 1)%N
}.

(** An index that is exact except just below 2^50, where it is 5 from
    2^50 - 3 on, as the floored quotient of doubles is. *)
Definition index_jumping_early (bytes : N) : N :=
  if ((2 ^ 50 - 3 <=? bytes) && (bytes <? 2 ^ 50))%N then 5%N
  else floor_log_k bytes.

(** ** Observations used by the statements *)

(** The progress counter of the timer with handle [h], if that timer is in
    the table. *)
Definition progress_of (h : N) (st : Script.Page) : option Q :=
  Script.progress <$> find (fun t => (Script.handle t =? h)%N) (Script.intervals st).

(** What the summary region of [script.js] shows, together with the files of
    the input: everything a selection writes. *)
Definition selection_view (st : Script.Page)
    : list File * (option string * option string * option string * option string) :=
  (Script.fileInput_files st,
   (Script.props st !! "fileName.textContent",
    Script.props st !! "fileSize.textContent",
    Script.props st !! "fileInfo.style.display",
    Script.props st !! "uploadPrompt.style.display")).

(** The rounding of doubles, as far as the progress counter relies on it:
    monotone, idempotent, and exact on the two integers the code writes. *)
Record Rounding (rnd : Q -> Q) : Prop := mkRounding {
  rnd_mono : forall x y, (x <= y)%Q -> (rnd x <= rnd y)%Q;
  rnd_idem : forall x, (rnd (rnd x) == rnd x)%Q;
  rnd_0 : (rnd 0 == 0)%Q;
  rnd_90 : (rnd 90 == 90)%Q
}.

(** A rounding that does round: down to the next multiple of 1/1024. *)
Definition round_down_1024 (x : Q) : Q := (inject_Z (Qfloor (x * 1024)) / 1024)%Q.

(** A timer of a page whose next free handle is [next]: its handle has been
    handed out, and its progress counter is a double between 0 and 90. *)
Definition timer_ok (rnd : Q -> Q) (next : N) (t : Script.Interval) : Prop :=
  (Script.handle t < next)%N /\
  (rnd (Script.progress t) == Script.progress t)%Q /\
  (0 <= Script.progress t)%Q /\ (Script.progress t <= 90)%Q.

Definition page_ok (rnd : Q -> Q) (st : Script.Page) : Prop :=
  Forall (timer_ok rnd (Script.next_handle st)) (Script.intervals st).

(** The last character of a string, used to tell property keys apart. *)
Fixpoint last_char (s : string) : option Ascii.ascii :=
  match s with
  | EmptyString => None
  | String c EmptyString => Some c
  | String _ rest => last_char rest
  end.

(** The summary region describes the first file of the input: its name, its
    formatted size, the file info shown and the upload prompt hidden.  An
    empty input asks nothing of the summary. *)
Definition summary_matches (st : Script.Page) : Prop :=
  match Script.fileInput_files st with
  | [] => True
  | f :: _ =>
      (selection_view st).2 =
        (Some (name f), Some (formatFileSize (size f)), Some "flex", Some "none")
  end.

(** How many submissions a list of inputs contains. *)
Definition submissions (inputs : list Script.Input) : nat :=
  length (List.filter (fun i => match i with Script.Submit => true | _ => false end) inputs).

(** How many firings of the timer [h] a list of inputs contains. *)
Definition firings (h : N) (inputs : list Script.Input) : nat :=
  length (List.filter
            (fun i => match i with Script.Tick h' _ => (h' =? h)%N | _ => false end) inputs).

(** The titles of the elements the pointer entered, in order. *)
Definition entered_titles (inputs : list Script.Input) : list string :=
  omap (fun i => match i with Script.MouseEnter _ title => Some title | _ => None end) inputs.

(** Sample files used in the examples below. *)
Definition sample_csv : File := mkFile "sample.csv" 2048 "text/csv".
Definition other_csv : File := mkFile "other.csv" 10 "text/csv".


(** * Properties *)

(** ** Size formatting *)

Lemma log2_k : N.log2 k = 10%N.
Proof. reflexivity. Qed.

Lemma k_pow (i : N) : (k ^ i = 2 ^ (10 * i))%N.
Proof. unfold k. change 1024%N with (2 ^ 10)%N. now rewrite <- N.pow_mul_r. Qed.

(** The index the code computes is the floor of the base-1024 logarithm. *)
Lemma floor_log_k_spec (bytes : N) :
  (0 < bytes)%N ->
  (k ^ floor_log_k bytes <= bytes < k ^ (floor_log_k bytes + 1))%N.
Proof.
  intros Hpos. unfold floor_log_k. rewrite log2_k, !k_pow.
  destruct (N.log2_spec bytes Hpos) as [Hlo Hhi].
  generalize dependent (N.log2 bytes). intros l Hlo Hhi.
  assert (Hdiv : (10 * (l / 10) <= l < 10 * (l / 10 + 1))%N).
  { pose proof (N.div_mod l 10 ltac:(discriminate)) as Hdm.
    pose proof (N.mod_lt l 10 ltac:(discriminate)) as Hml.
    generalize dependent (l / 10)%N. generalize dependent (l mod 10)%N.
    intros. lia. }
  split.
  - etransitivity; [|exact Hlo]. apply N.pow_le_mono_r; lia.
  - eapply N.lt_le_trans; [exact Hhi|]. apply N.pow_le_mono_r; lia.
Qed.

Lemma floor_log_k_unique (bytes i : N) :
  (k ^ i <= bytes < k ^ (i + 1))%N -> floor_log_k bytes = i.
Proof.
  intros [Hlo Hhi].
  assert (Hpos : (0 < bytes)%N).
  { eapply N.lt_le_trans; [|exact Hlo]. apply N.neq_0_lt_0, N.pow_nonzero. discriminate. }
  destruct (floor_log_k_spec bytes Hpos) as [Hlo' Hhi'].
  set (j := floor_log_k bytes) in *.
  destruct (N.lt_trichotomy j i) as [Hlt | [Heq | Hgt]]; [|exact Heq|].
  - exfalso. assert (k ^ (j + 1) <= k ^ i)%N by (apply N.pow_le_mono_r; [discriminate|lia]). lia.
  - exfalso. assert (k ^ (i + 1) <= k ^ j)%N by (apply N.pow_le_mono_r; [discriminate|lia]). lia.
Qed.

Lemma floor_log_k_small (bytes : N) :
  (bytes < k ^ 4)%N -> (floor_log_k bytes < 4)%N.
Proof.
  intros Hlt. destruct (N.eq_dec bytes 0%N) as [-> | Hne]; [reflexivity|].
  destruct (floor_log_k_spec bytes) as [Hlo _]; [lia|].
  destruct (N.lt_ge_cases (floor_log_k bytes) 4) as [H | H]; [exact H|exfalso].
  assert (k ^ 4 <= k ^ floor_log_k bytes)%N by (apply N.pow_le_mono_r; [discriminate|lia]).
  lia.
Qed.

Lemma floor_log_k_large (bytes : N) :
  (k ^ 4 <= bytes)%N -> (4 <= floor_log_k bytes)%N.
Proof.
  intros Hge.
  assert (Hpos : (0 < bytes)%N) by (change (k ^ 4)%N with 1099511627776%N in Hge; lia).
  destruct (floor_log_k_spec bytes Hpos) as [_ Hhi].
  destruct (N.lt_ge_cases (floor_log_k bytes) 4) as [H | H]; [exfalso|exact H].
  assert (k ^ (floor_log_k bytes + 1) <= k ^ 4)%N by (apply N.pow_le_mono_r; [discriminate|lia]).
  lia.
Qed.

(** Below 1024^4 the index of the code is the index the specification
    selects. *)
Lemma spec_unit_index_floor_log (bytes : N) :
  (0 < bytes)%N -> (bytes < k ^ 4)%N ->
  spec_unit_index bytes = N.to_nat (floor_log_k bytes).
Proof.
  intros Hpos Hlt. unfold spec_unit_index.
  change (seq 0 (length spec_units)) with [0; 1; 2; 3]%nat.
  cbn [List.filter].
  change (1024 ^ N.of_nat 0)%N with 1%N.
  change (1024 ^ N.of_nat 1)%N with 1024%N.
  change (1024 ^ N.of_nat 2)%N with 1048576%N.
  change (1024 ^ N.of_nat 3)%N with 1073741824%N.
  change (k ^ 4)%N with 1099511627776%N in Hlt.
  destruct (N.leb_spec 1 bytes) as [H0 | H0]; [|lia].
  destruct (N.leb_spec 1024 bytes) as [H1 | H1].
  2: { rewrite (floor_log_k_unique bytes 0); [|change (k ^ 0)%N with 1%N; change (k ^ (0 + 1))%N with 1024%N; lia].
       destruct (N.leb_spec 1048576 bytes); [lia|].
       destruct (N.leb_spec 1073741824 bytes); [lia|]. reflexivity. }
  destruct (N.leb_spec 1048576 bytes) as [H2 | H2].
  2: { rewrite (floor_log_k_unique bytes 1); [|change (k ^ 1)%N with 1024%N; change (k ^ (1 + 1))%N with 1048576%N; lia].
       destruct (N.leb_spec 1073741824 bytes); [lia|]. reflexivity. }
  destruct (N.leb_spec 1073741824 bytes) as [H3 | H3].
  - rewrite (floor_log_k_unique bytes 3); [reflexivity|].
    change (k ^ 3)%N with 1073741824%N; change (k ^ (3 + 1))%N with 1099511627776%N; lia.
  - rewrite (floor_log_k_unique bytes 2); [reflexivity|].
    change (k ^ 2)%N with 1048576%N; change (k ^ (2 + 1))%N with 1073741824%N; lia.
Qed.

(** Below 1024^4 [formatFileSize] is the format of the specification. *)
Lemma formatFileSize_meets_spec_below_k4 (bytes : N) :
  (bytes < k ^ 4)%N -> formatFileSize bytes = spec_formatFileSize bytes.
Proof.
  intros Hlt. unfold formatFileSize, spec_formatFileSize.
  destruct (N.eqb_spec bytes 0) as [Hz | Hnz]; [reflexivity|].
  cbv zeta. rewrite spec_unit_index_floor_log by lia.
  now rewrite N2Nat.id.
Qed.

(** [round2 num den] is the count of hundredths nearest to num/den, the
    larger one on a tie. *)
Lemma round2_nearest (num den : N) :
  (0 < den)%N ->
  (2 * den * round2 num den <= 200 * num + den < 2 * den * (round2 num den + 1))%N.
Proof.
  intros Hden. unfold round2.
  pose proof (N.div_mod (200 * num + den) (2 * den) ltac:(lia)) as Hdm.
  pose proof (N.mod_lt (200 * num + den) (2 * den) ltac:(lia)) as Hml.
  generalize dependent ((200 * num + den) / (2 * den))%N.
  generalize dependent ((200 * num + den) mod (2 * den))%N.
  intros. nia.
Qed.

(** The value the code scales to lies in [1, 1024). *)
Lemma scaled_value_range (bytes : N) :
  (0 < bytes)%N ->
  (k ^ floor_log_k bytes <= bytes < 1024 * k ^ floor_log_k bytes)%N.
Proof.
  intros Hpos. destruct (floor_log_k_spec bytes Hpos) as [Hlo Hhi].
  split; [exact Hlo|]. rewrite N.pow_add_r in Hhi. change (k ^ 1)%N with 1024%N in Hhi. lia.
Qed.

(** The worked examples of the specification. *)
Lemma formatFileSize_examples :
  formatFileSize 0 = "0 Bytes" /\
  formatFileSize 1024 = "1 KB" /\
  formatFileSize 1048576 = "1 MB" /\
  formatFileSize 1536 = "1.5 KB" /\
  formatFileSize 2048 = "2 KB".
Proof. repeat apply conj; vm_compute; reflexivity. Qed.

(** Below 1024^4 the unit label exists. *)
Lemma unit_label_present_below_k4 (bytes : N) :
  (bytes < k ^ 4)%N -> is_Some (sizes !! N.to_nat (floor_log_k bytes)).
Proof.
  intros Hlt. apply lookup_lt_is_Some. pose proof (floor_log_k_small bytes Hlt).
  change (length sizes) with 4%nat. lia.
Qed.

(** C1 (the code departs from the claim at 2 TiB).  At 2199023255552 bytes
    [formatFileSize] scales by 1024^4 and reads the unit label at index 4,
    which the four-element array does not have, so it returns
    "2 undefined"; the format the specification describes picks the largest
    of the four units and gives "2048 GB". *)
Theorem formatFileSize_two_tebibytes :
  formatFileSize 2199023255552 = "2 undefined" /\
  spec_formatFileSize 2199023255552 = "2048 GB" /\
  formatFileSize 2199023255552 <> spec_formatFileSize 2199023255552.
Proof.
  split; [|split].
  - vm_compute; reflexivity.
  - vm_compute; reflexivity.
  - vm_compute; discriminate.
Qed.

Lemma floor_log_k_mono (a b : N) :
  (a <= b)%N -> (floor_log_k a <= floor_log_k b)%N.
Proof.
  intros Hab. unfold floor_log_k. apply N.Div0.div_le_mono.
  by apply N.log2_le_mono.
Qed.

Lemma small_power_cases (i : N) :
  (1 <= i <= 4)%N -> i = 1%N \/ i = 2%N \/ i = 3%N \/ i = 4%N.
Proof. lia. Qed.

(** The exact floor is one admissible index. *)
Lemma DoubleIndex_exact : DoubleIndex floor_log_k.
Proof.
  constructor.
  - intros a b _ Hab. by apply floor_log_k_mono.
  - intros i Hi. destruct (small_power_cases i Hi) as [-> | [-> | [-> | ->]]]; reflexivity.
  - intros i Hi. destruct (small_power_cases i Hi) as [-> | [-> | [-> | ->]]]; reflexivity.
Qed.

(** So is the index that reaches 5 three bytes before 2^50. *)
Lemma DoubleIndex_jumping_early : DoubleIndex index_jumping_early.
Proof.
  assert (Hwin : forall b, ((2 ^ 50 - 3 <=? b) && (b <? 2 ^ 50))%N = true <->
                           (1125899906842621 <= b < 1125899906842624)%N).
  { intros b. rewrite andb_true_iff, N.leb_le, N.ltb_lt. reflexivity. }
  constructor.
  - intros a b _ Hab. unfold index_jumping_early.
    destruct ((2 ^ 50 - 3 <=? a) && (a <? 2 ^ 50))%N eqn:Ea;
      destruct ((2 ^ 50 - 3 <=? b) && (b <? 2 ^ 50))%N eqn:Eb.
    + reflexivity.
    + apply Hwin in Ea. apply not_true_iff_false in Eb. rewrite Hwin in Eb.
      change 5%N with (floor_log_k 1125899906842624). apply floor_log_k_mono. lia.
    + apply Hwin in Eb. apply not_true_iff_false in Ea. rewrite Hwin in Ea.
      etransitivity; [apply (floor_log_k_mono a 1125899906842620); lia|].
      vm_compute. discriminate.
    + by apply floor_log_k_mono.
  - intros i Hi. destruct (small_power_cases i Hi) as [-> | [-> | [-> | ->]]]; reflexivity.
  - intros i Hi. destruct (small_power_cases i Hi) as [-> | [-> | [-> | ->]]]; reflexivity.
Qed.

(** Below 1024^4 every admissible index is the exact floor. *)
Lemma double_index_below_k4 (idx : N -> N) (bytes : N) :
  DoubleIndex idx -> (0 < bytes)%N -> (bytes < k ^ 4)%N ->
  idx bytes = floor_log_k bytes.
Proof.
  intros Hidx Hpos Hlt.
  pose proof (floor_log_k_small bytes Hlt) as Hi.
  destruct (floor_log_k_spec bytes Hpos) as [Hlo Hhi].
  remember (floor_log_k bytes) as i eqn:Ei. clear Ei.
  assert (Hk : (0 < k ^ i)%N) by (apply N.neq_0_lt_0, N.pow_nonzero; discriminate).
  apply N.le_antisymm.
  - apply N.le_trans with (idx (k ^ (i + 1) - 1)%N).
    + apply (idx_mono idx Hidx); [exact Hpos|lia].
    + rewrite (idx_pred idx Hidx (i + 1)) by lia. lia.
  - destruct (N.eq_dec i 0%N) as [-> | Hne]; [lia|].
    apply N.le_trans with (idx (k ^ i)%N).
    + rewrite (idx_pow idx Hidx i) by lia. lia.
    + apply (idx_mono idx Hidx); [exact Hk|exact Hlo].
Qed.

(** From 1024^4 on every admissible index is at least 4. *)
Lemma double_index_from_k4 (idx : N -> N) (bytes : N) :
  DoubleIndex idx -> (k ^ 4 <= bytes)%N -> (4 <= idx bytes)%N.
Proof.
  intros Hidx Hge. apply N.le_trans with (idx (k ^ 4)%N).
  - rewrite (idx_pow idx Hidx 4) by lia. lia.
  - apply (idx_mono idx Hidx); [|exact Hge]. vm_compute. reflexivity.
Qed.

(** Below 1024^4 the function on doubles is [formatFileSize]. *)
Lemma formatFileSize_double_below_k4 (idx : N -> N) (bytes : N) :
  DoubleIndex idx -> (bytes < k ^ 4)%N ->
  formatFileSize_double idx bytes = formatFileSize bytes.
Proof.
  intros Hidx Hlt. unfold formatFileSize_double, formatFileSize.
  destruct (N.eqb_spec bytes 0) as [Hz | Hnz]; [reflexivity|].
  cbv zeta. rewrite (double_index_below_k4 idx bytes Hidx) by lia. reflexivity.
Qed.

(** Three bytes before 2^50 and up to 2^50 - 1 the quotient of doubles is
    already 5.0: the code shows "1 undefined" there, the index 5 of
    [index_jumping_early], where the exact floor 4 would give
    "1024 undefined". *)
Lemma formatFileSize_double_before_2_50 :
  formatFileSize_double index_jumping_early 1125899906842623 = "1 undefined" /\
  formatFileSize_double index_jumping_early 1125899906842621 = "1 undefined" /\
  formatFileSize_double index_jumping_early 1125899906842620 = "1024 undefined" /\
  formatFileSize_double floor_log_k 1125899906842623 = "1024 undefined".
Proof. repeat apply conj; vm_compute; reflexivity. Qed.

(** C9.  The unit array has a label for the computed index exactly when the
    byte count is below 1024^4.  For every byte count [small] below 1024^4
    the result is the one of [formatFileSize] and ends in one of the four
    labels.  For every byte count [big] of at least 1024^4 the computed
    index is 4 or more, the lookup in the four-element array finds nothing,
    and the result ends with the text "undefined" in place of a unit.  The
    computed index is the floored quotient of doubles, of which
    [DoubleIndex] is assumed. *)
Theorem unit_label_missing_from_k4 (idx : N -> N) (small big : N) :
  DoubleIndex idx ->
  (small < k ^ 4)%N ->
  (k ^ 4 <= big)%N ->
  (formatFileSize_double idx small = formatFileSize small /\
   exists number unit,
     unit ∈ sizes /\
     formatFileSize_double idx small = number +:+ " " +:+ unit) /\
  ((4 <= idx big)%N /\
   sizes !! N.to_nat (idx big) = None /\
   formatFileSize_double idx big =
     number_to_string (round2 big (k ^ idx big)) +:+ " " +:+ "undefined").
Proof.
  intros Hidx Hsmall Hbig. split.
  - pose proof (formatFileSize_double_below_k4 idx small Hidx Hsmall) as Heq.
    split; [exact Heq|]. rewrite Heq. unfold formatFileSize.
    destruct (N.eqb_spec small 0) as [Hz | Hnz].
    + exists "0", "Bytes". split; [|reflexivity]. apply list_elem_of_here.
    + destruct (unit_label_present_below_k4 small Hsmall) as [unit Hunit].
      exists (number_to_string (round2 small (k ^ floor_log_k small))), unit.
      split; [by eapply list_elem_of_lookup_2|]. cbv zeta. by rewrite Hunit.
  - pose proof (double_index_from_k4 idx big Hidx Hbig) as Hge.
    assert (Hnone : sizes !! N.to_nat (idx big) = None).
    { apply lookup_ge_None. change (length sizes) with 4%nat. lia. }
    split; [exact Hge|]. split; [exact Hnone|].
    unfold formatFileSize_double.
    destruct (N.eqb_spec big 0) as [Hz | Hnz].
    + exfalso. subst big. change (k ^ 4)%N with 1099511627776%N in Hbig. lia.
    + cbv zeta. by rewrite Hnone.
Qed.

Lemma unit_label_missing_from_k4_witness :
  DoubleIndex index_jumping_early /\
  (1536 < k ^ 4)%N /\
  (k ^ 4 <= 1125899906842623)%N /\
  (formatFileSize_double index_jumping_early 1536 = formatFileSize 1536 /\
   exists number unit,
     unit ∈ sizes /\
     formatFileSize_double index_jumping_early 1536 = number +:+ " " +:+ unit) /\
  ((4 <= index_jumping_early 1125899906842623)%N /\
   sizes !! N.to_nat (index_jumping_early 1125899906842623) = None /\
   formatFileSize_double index_jumping_early 1125899906842623 =
     number_to_string
       (round2 1125899906842623 (k ^ index_jumping_early 1125899906842623))
       +:+ " " +:+ "undefined").
Proof.
  assert (Hsmall : (1536 < k ^ 4)%N) by (vm_compute; reflexivity).
  assert (Hbig : (k ^ 4 <= 1125899906842623)%N) by (vm_compute; discriminate).
  split; [exact DoubleIndex_jumping_early|]. split; [exact Hsmall|]. split; [exact Hbig|].
  exact (unit_label_missing_from_k4 index_jumping_early 1536 1125899906842623
           DoubleIndex_jumping_early Hsmall Hbig).
Defined.

(** ** Selecting and removing files *)

(** What [updateFileInfo] leaves in the summary region. *)
Lemma updateFileInfo_view (file : File) (st : Script.Page) :
  selection_view (Script.updateFileInfo file st) =
    (Script.fileInput_files st,
     (Some (name file), Some (formatFileSize (size file)), Some "flex", Some "none")).
Proof. unfold selection_view, Script.updateFileInfo. cbn. by simplify_map_eq. Qed.

(** Highlighting touches neither the files of the input nor the summary. *)
Lemma unhighlight_view (e : Event) (st : Script.Page) :
  selection_view (Script.unhighlight e st).2 = selection_view st.
Proof. unfold selection_view, Script.unhighlight. cbn. by simplify_map_eq. Qed.

Lemma set_files_view (fs : list File) (st : Script.Page) :
  selection_view (Script.set_files fs st) = (fs, (selection_view st).2).
Proof. reflexivity. Qed.

(** A drop of at least one file, on any page. *)
Lemma on_drop_view (f : File) (rest : list File) (e : Event) (st : Script.Page) :
  dataTransfer_files e = f :: rest ->
  selection_view (Script.on_drop e st).2 =
    (f :: rest, (Some (name f), Some (formatFileSize (size f)), Some "flex", Some "none")).
Proof.
  intros He. unfold Script.on_drop, Script.dispatch. cbn. rewrite He. cbn.
  unfold selection_view. cbn. by simplify_map_eq.
Qed.

(** A pick of at least one file, on any page. *)
Lemma pick_view (f : File) (rest : list File) (st : Script.Page) :
  selection_view (Script.pick (f :: rest) st) =
    (f :: rest, (Some (name f), Some (formatFileSize (size f)), Some "flex", Some "none")).
Proof. unfold Script.pick, Script.on_change. cbn. unfold selection_view. cbn. by simplify_map_eq. Qed.

(** In [script.js] a drop without files changes neither the files of the
    input nor the summary. *)
Lemma script_empty_drop_keeps_selection (st : Script.Page) :
  selection_view (Script.on_drop (Script.new_event []) st).2 = selection_view st.
Proof. unfold Script.on_drop, Script.dispatch. cbn. unfold selection_view. cbn. by simplify_map_eq. Qed.

(** C3, as stated, fails: after a drop of two files the input of either
    script holds both, so more than one file is selected. *)
Lemma drop_of_two_selects_two :
  ~ (length (Script.fileInput_files
       (Script.on_drop (Script.new_event [sample_csv; other_csv]) (Script.fresh [])).2) <= 1)%nat
  /\
  ~ (length (Part000.fileInput_files
       (Part000.on_drop (mkEvent [sample_csv; other_csv] false false) Part000.fresh).2.1) <= 1)%nat.
Proof. split; vm_compute; lia. Qed.

(** C3, amended.  A drop that carries at least one file renders the summary
    of the first file, and of the first file only; the file input receives
    the whole dropped list.  This holds for [script.js] and for the
    variant. *)
Theorem drop_shows_first_file (f : File) (rest : list File)
    (st : Script.Page) (st0 : Part000.Page) :
  selection_view (Script.on_drop (Script.new_event (f :: rest)) st).2 =
    (f :: rest, (Some (name f), Some (formatFileSize (size f)), Some "flex", Some "none"))
  /\
  (Part000.on_drop (mkEvent (f :: rest) false false) st0).2 =
    (Part000.mkPage false (f :: rest)
       ("<strong>" +:+ name f +:+ "</strong> (" +:+ toFixed2 (size f) 1024 +:+ " KB)")
       (Part000.progressContainer_display st0) (Part000.picker_opened st0)
       (Part000.intervals st0),
     Part000.Normal).
Proof.
  split.
  - now apply on_drop_view.
  - reflexivity.
Qed.

(** C4 (the variant departs from the claim).  With sample.csv selected, a
    drop without files makes the variant's listener assign the empty list to
    the file input and then raise a TypeError in [showFile]; the selection is
    lost. *)
Theorem variant_empty_drop_clears_selection :
  let before := Part000.mkPage true [sample_csv] "<strong>sample.csv</strong> (2.00 KB)" "" 0 [] in
  let after := (Part000.on_drop (mkEvent [] false false) before).2 in
  Part000.fileInput_files before = [sample_csv] /\
  Part000.fileInput_files after.1 = [] /\
  after.2 = Part000.Throw "TypeError".
Proof. cbv zeta. repeat apply conj; reflexivity. Qed.

(** C10.  When more than one file is dropped, the file input of either
    script receives every dropped file, submission leaves that list as it
    is, and only the summary is taken from the first file. *)
Theorem drop_keeps_every_file (f g : File) (rest : list File)
    (st : Script.Page) (st0 : Part000.Page) :
  let files := f :: g :: rest in
  let st' := (Script.on_drop (Script.new_event files) st).2 in
  let st0' := (Part000.on_drop (mkEvent files false false) st0).2.1 in
  (1 < length files)%nat /\
  Script.fileInput_files st' = files /\
  Script.fileInput_files (Script.on_submit st') = files /\
  Script.props st' !! "fileName.textContent" = Some (name f) /\
  Script.props st' !! "fileSize.textContent" = Some (formatFileSize (size f)) /\
  Part000.fileInput_files st0' = files /\
  Part000.fileInput_files (Part000.on_submit st0') = files /\
  Part000.selectedFileContainer_innerHTML st0' =
    "<strong>" +:+ name f +:+ "</strong> (" +:+ toFixed2 (size f) 1024 +:+ " KB)".
Proof.
  cbv zeta.
  pose proof (on_drop_view f (g :: rest) (Script.new_event (f :: g :: rest)) st eq_refl) as Hview.
  unfold selection_view in Hview. injection Hview; intros.
  repeat apply conj; try reflexivity; try assumption.
  cbn [length]. lia.
Qed.

(** C6.  The click listener of the remove button stops the propagation of
    the click, empties the file input by resetting its value, hides the file
    info and shows the upload prompt again; a selection made afterwards, by
    drop or by the picker, leaves the input and the summary exactly as the
    same selection on a freshly loaded page does. *)
Theorem remove_click_resets_selection (e : Event) (st : Script.Page)
    (checkboxes : list bool) (f : File) (rest : list File) :
  let e' := (Script.on_remove_click e st).1 in
  let st' := (Script.on_remove_click e st).2 in
  propagationStopped e' = true /\
  Script.fileInput_files st' = [] /\
  Script.fileInput_value st' = "" /\
  Script.props st' !! "fileInfo.style.display" = Some "none" /\
  Script.props st' !! "uploadPrompt.style.display" = Some "block" /\
  selection_view (Script.on_drop (Script.new_event (f :: rest)) st').2 =
    selection_view (Script.on_drop (Script.new_event (f :: rest)) (Script.fresh checkboxes)).2 /\
  selection_view (Script.pick (f :: rest) st') =
    selection_view (Script.pick (f :: rest) (Script.fresh checkboxes)).
Proof.
  cbv zeta.
  split; [reflexivity|]. split; [reflexivity|]. split; [reflexivity|].
  split; [unfold Script.on_remove_click; cbn; by simplify_map_eq|].
  split; [unfold Script.on_remove_click; cbn; by simplify_map_eq|].
  split.
  - rewrite !(on_drop_view f rest) by reflexivity. reflexivity.
  - now rewrite !pick_view.
Qed.

(** C7, as stated, fails for the variant: its submit listener starts no
    timer. *)
Lemma variant_submit_starts_no_timer :
  ~ (exists t, t ∈ Part000.intervals (Part000.on_submit Part000.fresh) /\ t.2 = 500%N).
Proof. intros [t [Hin _]]. cbn in Hin. by apply elem_of_nil in Hin. Qed.

(** C7, amended.  In [script.js] the submit listener disables the submit
    button, sets the display of the processing overlay to flex, and registers
    one new repeating timer with a delay of 500 ms whose progress counter
    starts at 0; its handle is the one the timer table hands out next.  The
    submit listener of the variant only sets the display of the progress
    container to flex: it registers no timer. *)
Theorem submit_starts_progress_timer (st : Script.Page) (st0 : Part000.Page) :
  let st' := Script.on_submit st in
  Script.submitBtn_disabled st' = true /\
  Script.props st' !! "processingOverlay.style.display" = Some "flex" /\
  Script.intervals st' =
    Script.intervals st ++ [Script.mkInterval (Script.next_handle st) 500 0] /\
  Part000.on_submit st0 =
    Part000.mkPage (Part000.dropZone_dragging st0) (Part000.fileInput_files st0)
      (Part000.selectedFileContainer_innerHTML st0) "flex"
      (Part000.picker_opened st0) (Part000.intervals st0).
Proof.
  cbv zeta. repeat apply conj; try reflexivity.
  unfold Script.on_submit. cbn. by simplify_map_eq.
Qed.

(** ** The simulated progress *)

Section TimerTable.

Variable rnd : Q -> Q.

Lemma Rounding_proper (Hrnd : Rounding rnd) (x y : Q) :
  (x == y)%Q -> (rnd x == rnd y)%Q.
Proof.
  intros Hxy. apply Qle_antisym; apply (rnd_mono rnd Hrnd); rewrite Hxy; apply Qle_refl.
Qed.

(** One tick never lowers the counter and never lifts it above 90. *)
Lemma tick_progress_bounds (Hrnd : Rounding rnd) (p r : Q) :
  (rnd p == p)%Q -> (0 <= p)%Q -> (p <= 90)%Q -> (0 <= r)%Q ->
  (p <= Script.tick_progress rnd p r)%Q /\
  (Script.tick_progress rnd p r <= 90)%Q /\
  (rnd (Script.tick_progress rnd p r) == Script.tick_progress rnd p r)%Q.
Proof.
  intros Hrep Hp0 Hp90 Hr. unfold Script.tick_progress. cbv zeta.
  destruct (Qlt_le_dec 90 (rnd (p + rnd (r * 10)))) as [Hcap | Hno].
  - split; [exact Hp90|]. split; [apply Qle_refl|]. apply (rnd_90 rnd Hrnd).
  - split; [|split; [exact Hno|apply (rnd_idem rnd Hrnd)]].
    assert (Hx : (0 <= rnd (r * 10))%Q).
    { rewrite <- (rnd_0 rnd Hrnd). apply (rnd_mono rnd Hrnd). lra. }
    rewrite <- Hrep at 1. apply (rnd_mono rnd Hrnd). lra.
Qed.

Lemma advance_handle (h : N) (r : Q) (t : Script.Interval) :
  Script.handle (Script.advance rnd h r t) = Script.handle t.
Proof. unfold Script.advance. by destruct (N.eqb_spec (Script.handle t) h). Qed.

Lemma advance_delay (h : N) (r : Q) (t : Script.Interval) :
  Script.delay (Script.advance rnd h r t) = Script.delay t.
Proof. unfold Script.advance. by destruct (N.eqb_spec (Script.handle t) h). Qed.

Lemma find_map_advance (h h' : N) (r : Q) (l : list Script.Interval) :
  find (fun t => (Script.handle t =? h)%N) (map (Script.advance rnd h' r) l) =
    Script.advance rnd h' r <$> find (fun t => (Script.handle t =? h)%N) l.
Proof.
  induction l as [|t l IH]; [reflexivity|]. cbn [map find].
  rewrite advance_handle. destruct (Script.handle t =? h)%N; [reflexivity|exact IH].
Qed.

Lemma map_advance_absent (h : N) (r : Q) (l : list Script.Interval) :
  find (fun t => (Script.handle t =? h)%N) l = None ->
  map (Script.advance rnd h r) l = l.
Proof.
  induction l as [|t l IH]; [reflexivity|]. cbn [map find].
  destruct (Script.handle t =? h)%N eqn:E; [discriminate|].
  intros Hl. rewrite (IH Hl). unfold Script.advance. by rewrite E.
Qed.

Lemma find_app_found {A} (f : A -> bool) (l l' : list A) (x : A) :
  find f l = Some x -> find f (l ++ l') = Some x.
Proof.
  induction l as [|a l IH]; [discriminate|]. cbn [app find].
  destruct (f a); [exact id|exact IH].
Qed.

(** The timer table after one input: a submission appends one timer, a
    tick advances the timers with the firing handle, every other listener
    leaves the table alone.  No listener removes a timer. *)
Lemma step_timers (st : Script.Page) (i : Script.Input) :
  match i with
  | Script.Submit =>
      Script.intervals (Script.step rnd st i) =
        Script.intervals st ++ [Script.mkInterval (Script.next_handle st) 500 0] /\
      Script.next_handle (Script.step rnd st i) = (Script.next_handle st + 1)%N
  | Script.Tick h r =>
      Script.intervals (Script.step rnd st i) =
        map (Script.advance rnd h r) (Script.intervals st) /\
      Script.next_handle (Script.step rnd st i) = Script.next_handle st
  | _ =>
      Script.intervals (Script.step rnd st i) = Script.intervals st /\
      Script.next_handle (Script.step rnd st i) = Script.next_handle st
  end.
Proof.
  destruct i as [ | | |files|files| | |h r| |el title|el|has_logo]; cbn;
    try (split; reflexivity).
  - by destruct files.
  - by destruct files.
  - unfold Script.on_tick.
    destruct (find _ (Script.intervals st)) as [t|] eqn:Hfind.
    + split; reflexivity.
    + by rewrite map_advance_absent.
  - unfold Script.on_mouseleave.
    by destruct (Script.props st !! Script.tooltipId_key el) as [[|c s]|].
  - by destruct has_logo.
Qed.

(** Every timer of the table is still there after any input, under the
    same handle and with the same delay. *)
Lemma step_keeps_timers (st : Script.Page) (i : Script.Input) (t : Script.Interval) :
  t ∈ Script.intervals st ->
  exists t', t' ∈ Script.intervals (Script.step rnd st i) /\
    Script.handle t' = Script.handle t /\ Script.delay t' = Script.delay t.
Proof.
  intros Hin. pose proof (step_timers st i) as Hst.
  destruct i; destruct Hst as [-> _];
    try (exists t; split; [exact Hin|split; reflexivity]).
  - exists t. split; [apply elem_of_app; by left|split; reflexivity].
  - exists (Script.advance rnd h r t). split; [by apply list_elem_of_fmap_2|].
    split; [apply advance_handle|apply advance_delay].
Qed.

Lemma run_keeps_timers (inputs : list Script.Input) (st : Script.Page) (t : Script.Interval) :
  t ∈ Script.intervals st ->
  exists t', t' ∈ Script.intervals (Script.run rnd st inputs) /\
    Script.handle t' = Script.handle t /\ Script.delay t' = Script.delay t.
Proof.
  revert st t. induction inputs as [|i inputs IH]; intros st t Hin.
  - exists t. by repeat split.
  - destruct (step_keeps_timers st i t Hin) as (t1 & Hin1 & Hh1 & Hd1).
    destruct (IH (Script.step rnd st i) t1 Hin1) as (t2 & Hin2 & Hh2 & Hd2).
    exists t2. split; [exact Hin2|]. split; congruence.
Qed.

End TimerTable.

Section ProgressInvariant.

Variable rnd : Q -> Q.
Hypothesis Hrnd : Rounding rnd.

Lemma timer_ok_weaken (n m : N) (t : Script.Interval) :
  (n <= m)%N -> timer_ok rnd n t -> timer_ok rnd m t.
Proof. unfold timer_ok. intros Hnm (Hh & Hrest). split; [lia|exact Hrest]. Qed.

Lemma advance_ok (n h : N) (r : Q) (t : Script.Interval) :
  (0 <= r)%Q -> timer_ok rnd n t -> timer_ok rnd n (Script.advance rnd h r t).
Proof.
  intros Hr (Hh & Hrep & Hp0 & Hp90). unfold Script.advance.
  destruct (Script.handle t =? h)%N; [|by repeat split].
  destruct (tick_progress_bounds rnd Hrnd _ r Hrep Hp0 Hp90 Hr) as (Hle & Hcap & Hrep').
  repeat split; cbn; try assumption. eapply Qle_trans; eassumption.
Qed.

Lemma page_ok_fresh (checkboxes : list bool) : page_ok rnd (Script.fresh checkboxes).
Proof. apply Forall_nil_2. Qed.

(** Valid inputs keep every progress counter a double between 0 and 90 and
    every handle below the next free one. *)
Lemma page_ok_step (st : Script.Page) (i : Script.Input) :
  Script.valid_input i -> page_ok rnd st -> page_ok rnd (Script.step rnd st i).
Proof.
  unfold page_ok. intros Hvalid Hok. pose proof (step_timers rnd st i) as Hst.
  destruct i; destruct Hst as [-> ->]; try exact Hok.
  - apply Forall_app. split.
    + eapply Forall_impl; [exact Hok|]. intros t. apply timer_ok_weaken. lia.
    + apply Forall_singleton. unfold timer_ok. cbn.
      split; [lia|]. split; [apply (rnd_0 rnd Hrnd)|]. split; lra.
  - apply Forall_fmap. eapply Forall_impl; [exact Hok|].
    intros t. apply advance_ok. exact (proj1 Hvalid).
Qed.

Lemma page_ok_run (inputs : list Script.Input) (st : Script.Page) :
  Forall Script.valid_input inputs -> page_ok rnd st ->
  page_ok rnd (Script.run rnd st inputs).
Proof.
  revert st. induction inputs as [|i inputs IH]; intros st Hvalid Hok; [exact Hok|].
  apply Forall_cons in Hvalid as [Hi Hrest].
  apply (IH (Script.step rnd st i) Hrest). by apply page_ok_step.
Qed.

Lemma find_handle_ok (h : N) (st : Script.Page) (t : Script.Interval) :
  page_ok rnd st ->
  find (fun t => (Script.handle t =? h)%N) (Script.intervals st) = Some t ->
  Script.handle t = h /\ timer_ok rnd (Script.next_handle st) t.
Proof.
  intros Hok Hfind. apply find_some in Hfind as [Hin Heq].
  split; [by apply N.eqb_eq|].
  unfold page_ok in Hok. rewrite Forall_forall in Hok. apply Hok.
  by apply list_elem_of_In.
Qed.

(** The timer a submission creates starts with progress 0. *)
Lemma progress_of_submit (st : Script.Page) :
  page_ok rnd st ->
  progress_of (Script.next_handle st) (Script.on_submit st) = Some 0%Q.
Proof.
  intros Hok. unfold progress_of.
  change (Script.intervals (Script.on_submit st))
    with (Script.intervals st ++ [Script.mkInterval (Script.next_handle st) 500 0]).
  unfold page_ok in Hok.
  induction Hok as [|t l (Hlt & _) _ IH]; cbn [app find].
  - cbn. by rewrite N.eqb_refl.
  - destruct (N.eqb_spec (Script.handle t) (Script.next_handle st)) as [Heq|_]; [lia|exact IH].
Qed.

(** Across one valid input the counter of a timer does not decrease and
    stays at or below 90. *)
Lemma progress_of_step (h : N) (st : Script.Page) (i : Script.Input) (p : Q) :
  Script.valid_input i -> page_ok rnd st ->
  progress_of h st = Some p ->
  exists p', progress_of h (Script.step rnd st i) = Some p' /\
    (p <= p')%Q /\ (p' <= 90)%Q.
Proof.
  intros Hvalid Hok Hp. unfold progress_of in *.
  destruct (find _ (Script.intervals st)) as [t|] eqn:Hfind; [|discriminate].
  injection Hp as <-.
  destruct (find_handle_ok h st t Hok Hfind) as (Hh & _ & Hrep & Hp0 & Hp90).
  pose proof (step_timers rnd st i) as Hst.
  destruct i; destruct Hst as [-> _];
    try (rewrite Hfind; exists (Script.progress t); repeat split; [apply Qle_refl|exact Hp90]).
  - rewrite (find_app_found _ _ _ t Hfind).
    exists (Script.progress t). repeat split; [apply Qle_refl|exact Hp90].
  - rewrite find_map_advance, Hfind. cbn [fmap option_fmap option_map].
    exists (Script.progress (Script.advance rnd h0 r t)). split; [reflexivity|].
    unfold Script.advance. destruct (Script.handle t =? h0)%N.
    + cbn. destruct (tick_progress_bounds rnd Hrnd _ r Hrep Hp0 Hp90 (proj1 Hvalid)) as (Hle & Hcap & _).
      by split.
    + split; [apply Qle_refl|exact Hp90].
Qed.

Lemma progress_of_run (h : N) (inputs : list Script.Input) (st : Script.Page) (p : Q) :
  Forall Script.valid_input inputs -> page_ok rnd st ->
  progress_of h st = Some p ->
  exists p', progress_of h (Script.run rnd st inputs) = Some p' /\
    (p <= p')%Q /\ (p' <= 90)%Q.
Proof.
  revert st p. induction inputs as [|i inputs IH]; intros st p Hvalid Hok Hp.
  - exists p. split; [exact Hp|]. split; [apply Qle_refl|].
    unfold progress_of in Hp.
    destruct (find _ (Script.intervals st)) as [t|] eqn:Hfind; [|discriminate].
    injection Hp as <-. by destruct (find_handle_ok h st t Hok Hfind) as (_ & _ & _ & _ & H90).
  - apply Forall_cons in Hvalid as [Hi Hrest].
    destruct (progress_of_step h st i p Hi Hok Hp) as (p1 & Hp1 & Hle1 & _).
    destruct (IH (Script.step rnd st i) p1 Hrest (page_ok_step st i Hi Hok) Hp1)
      as (p2 & Hp2 & Hle2 & Hcap2).
    exists p2. split; [exact Hp2|]. split; [eapply Qle_trans; eassumption|exact Hcap2].
Qed.

End ProgressInvariant.

(** Exact arithmetic is one rounding. *)
Lemma Rounding_exact : Rounding (fun q => q).
Proof. constructor; intros; [assumption|reflexivity|reflexivity|reflexivity]. Qed.

(** Rounding down to a fixed grid is another. *)
Lemma Rounding_round_down_1024 : Rounding round_down_1024.
Proof.
  constructor; unfold round_down_1024.
  - intros x y Hxy. apply Qmult_le_compat_r; [|discriminate].
    rewrite <- Zle_Qle. apply Qfloor_resp_le. lra.
  - intros x. apply Qmult_comp; [|reflexivity]. apply inject_Z_injective.
    rewrite <- (Qfloor_Z (Qfloor (x * 1024))) at 2. apply Qfloor_comp. field.
  - reflexivity.
  - reflexivity.
Qed.

(** C2.  Take any page reached from a fresh load, submit the form, and let
    any further inputs follow, every [Math.random()] lying in [0, 1).  The
    counter of the timer that this submission created starts at 0, and across
    every following input (a tick of this timer in particular) it does not
    decrease and is at most 90, hence below 100. *)
Theorem progress_nondecreasing_capped (rnd : Q -> Q) (checkboxes : list bool)
    (pre post : list Script.Input) (i : Script.Input) :
  Rounding rnd ->
  Forall Script.valid_input pre ->
  Forall Script.valid_input post ->
  Script.valid_input i ->
  let st0 := Script.run rnd (Script.fresh checkboxes) pre in
  let h := Script.next_handle st0 in
  let st := Script.run rnd (Script.on_submit st0) post in
  progress_of h (Script.on_submit st0) = Some 0%Q /\
  exists p p',
    progress_of h st = Some p /\
    progress_of h (Script.step rnd st i) = Some p' /\
    (0 <= p)%Q /\ (p <= p')%Q /\ (p' <= 90)%Q /\ (p' < 100)%Q.
Proof.
  intros Hrnd Hpre Hpost Hi. cbv zeta.
  set (st0 := Script.run rnd (Script.fresh checkboxes) pre).
  assert (Hok0 : page_ok rnd st0) by (apply page_ok_run; [exact Hrnd|exact Hpre|apply page_ok_fresh]).
  assert (Hok1 : page_ok rnd (Script.on_submit st0)).
  { change (Script.on_submit st0) with (Script.step rnd st0 Script.Submit).
    by apply page_ok_step. }
  pose proof (progress_of_submit rnd st0 Hok0) as Hstart.
  split; [exact Hstart|].
  destruct (progress_of_run rnd Hrnd _ post _ _ Hpost Hok1 Hstart) as (p & Hp & Hp0 & _).
  assert (Hok : page_ok rnd (Script.run rnd (Script.on_submit st0) post))
    by (by apply page_ok_run).
  destruct (progress_of_step rnd Hrnd _ _ i p Hi Hok Hp) as (p' & Hp' & Hle & Hcap).
  exists p, p'. repeat split; try assumption. lra.
Qed.

Lemma progress_nondecreasing_capped_witness :
  Rounding (fun q => q) /\
  Forall Script.valid_input [Script.Drop [sample_csv]] /\
  Forall Script.valid_input [Script.Tick 1 (1 # 2); Script.Tick 1 (9 # 10)] /\
  Script.valid_input (Script.Tick 1 (3 # 10)) /\
  exists p p',
    progress_of 1 (Script.run (fun q => q)
      (Script.on_submit (Script.run (fun q => q) (Script.fresh []) [Script.Drop [sample_csv]]))
      [Script.Tick 1 (1 # 2); Script.Tick 1 (9 # 10)]) = Some p /\
    progress_of 1 (Script.step (fun q => q) (Script.run (fun q => q)
      (Script.on_submit (Script.run (fun q => q) (Script.fresh []) [Script.Drop [sample_csv]]))
      [Script.Tick 1 (1 # 2); Script.Tick 1 (9 # 10)]) (Script.Tick 1 (3 # 10))) = Some p' /\
    (0 <= p)%Q /\ (p <= p')%Q /\ (p' <= 90)%Q /\ (p' < 100)%Q.
Proof.
  assert (Hpre : Forall Script.valid_input [Script.Drop [sample_csv]])
    by (repeat constructor).
  assert (Hpost : Forall Script.valid_input [Script.Tick 1 (1 # 2); Script.Tick 1 (9 # 10)])
    by (repeat constructor; cbn; lra).
  assert (Hi : Script.valid_input (Script.Tick 1 (3 # 10))) by (cbn; lra).
  split; [exact Rounding_exact|]. split; [exact Hpre|]. split; [exact Hpost|].
  split; [exact Hi|].
  exact (proj2 (progress_nondecreasing_capped (fun q => q) []
                  [Script.Drop [sample_csv]]
                  [Script.Tick 1 (1 # 2); Script.Tick 1 (9 # 10)]
                  (Script.Tick 1 (3 # 10)) Rounding_exact Hpre Hpost Hi)).
Defined.

(** C5.  Whenever a timer fires, the processing text written to the page is
    determined by the counter the timer then holds: the validating text when
    the counter is below 30, the initializing text when it is at least 30 and
    below 60, the cleaning text when it is at least 60. *)
Theorem processing_text_follows_progress (rnd : Q -> Q) (h : N) (r : Q)
    (st : Script.Page) (t : Script.Interval) :
  find (fun t => (Script.handle t =? h)%N) (Script.intervals st) = Some t ->
  let st' := Script.on_tick rnd h r st in
  let p := Script.tick_progress rnd (Script.progress t) r in
  progress_of h st' = Some p /\
  Script.props st' !! "processingText.textContent" = Some (Script.processing_text p) /\
  (((p < 30)%Q /\ Script.processing_text p = "Validating file format...") \/
   ((30 <= p)%Q /\ (p < 60)%Q /\ Script.processing_text p = "Initializing AI agent...") \/
   ((60 <= p)%Q /\ Script.processing_text p = "Cleaning and enriching data...")).
Proof.
  intros Hfind. cbv zeta. split; [|split].
  - unfold progress_of, Script.on_tick. rewrite Hfind. cbn [Script.intervals Script.show_progress Script.set_prop Script.set_width Script.set_intervals].
    rewrite find_map_advance, Hfind. cbn. unfold Script.advance.
    apply find_some in Hfind as [_ Heq]. by rewrite Heq.
  - unfold Script.on_tick. rewrite Hfind. unfold Script.show_progress. cbn.
    by simplify_map_eq.
  - unfold Script.processing_text.
    destruct (Qlt_le_dec _ 30) as [H30|H30]; [left; by split|].
    destruct (Qlt_le_dec _ 60) as [H60|H60]; [right; left; by repeat split|].
    right; right; by split.
Qed.

Lemma processing_text_follows_progress_witness :
  find (fun t => (Script.handle t =? 1)%N)
    (Script.intervals (Script.on_submit (Script.fresh []))) = Some (Script.mkInterval 1 500 0) /\
  Script.props (Script.on_tick (fun q => q) 1 (1 # 2) (Script.on_submit (Script.fresh [])))
    !! "processingText.textContent" = Some "Validating file format...".
Proof.
  split; [reflexivity|].
  exact (proj1 (proj2 (processing_text_follows_progress (fun q => q) 1 (1 # 2)
                         (Script.on_submit (Script.fresh []))
                         (Script.mkInterval 1 500 0) eq_refl))).
Defined.

(** C8.  The submit listener stores the handle of its timer in the dataset
    of the form, and that is all that is ever done with it: whatever inputs
    follow, the timer is still in the timer table with its delay of 500 ms,
    because no listener of the script removes a timer. *)
Theorem progress_timer_never_cleared (rnd : Q -> Q) (st0 : Script.Page)
    (post : list Script.Input) :
  let h := Script.next_handle st0 in
  Script.props (Script.on_submit st0) !! "uploadForm.dataset.progressInterval" = Some (dec h) /\
  (exists t, t ∈ Script.intervals (Script.on_submit st0) /\
     Script.handle t = h /\ Script.delay t = 500%N) /\
  (exists t, t ∈ Script.intervals (Script.run rnd (Script.on_submit st0) post) /\
     Script.handle t = h /\ Script.delay t = 500%N) /\
  (length (Script.intervals (Script.on_submit st0)) <=
     length (Script.intervals (Script.run rnd (Script.on_submit st0) post)))%nat.
Proof.
  cbv zeta.
  assert (Hnew : Script.mkInterval (Script.next_handle st0) 500 0
                   ∈ Script.intervals (Script.on_submit st0)).
  { change (Script.intervals (Script.on_submit st0))
      with (Script.intervals st0 ++ [Script.mkInterval (Script.next_handle st0) 500 0]).
    apply elem_of_app. right. apply list_elem_of_singleton. reflexivity. }
  split; [unfold Script.on_submit; cbn; by simplify_map_eq|].
  split; [eexists; split; [exact Hnew|split; reflexivity]|].
  split; [exact (run_keeps_timers rnd post _ _ Hnew)|].
  generalize (Script.on_submit st0). induction post as [|i post IH]; intros st; [reflexivity|].
  etransitivity; [|apply IH].
  pose proof (step_timers rnd st i) as Hst.
  destruct i; destruct Hst as [-> _]; try reflexivity.
  - rewrite length_app. lia.
  - by rewrite length_map.
Qed.

(** * Further properties of the code *)

(** ** [formatFileSize] in detail *)

Lemma number_to_string_whole (n : N) : number_to_string (100 * n) = dec n.
Proof.
  unfold number_to_string.
  replace ((100 * n) mod 100)%N with 0%N
    by (symmetry; rewrite N.mul_comm; apply N.Div0.mod_mul).
  cbn [N.eqb]. f_equal. rewrite N.mul_comm. apply N.div_mul. discriminate.
Qed.

Lemma round2_whole (n : N) : round2 n 1 = (100 * n)%N.
Proof.
  unfold round2. symmetry. apply (N.div_unique _ _ _ 1%N); lia.
Qed.

(** X1.  Sizes below 1024 bytes are printed exactly, as an integer count of
    bytes. *)
Theorem formatFileSize_below_1024 (bytes : N) :
  (0 < bytes)%N -> (bytes < 1024)%N ->
  formatFileSize bytes = dec bytes +:+ " Bytes".
Proof.
  intros Hpos Hlt. unfold formatFileSize.
  destruct (N.eqb_spec bytes 0) as [Hz | _]; [lia|]. cbv zeta.
  rewrite (floor_log_k_unique bytes 0)
    by (change (k ^ 0)%N with 1%N; change (k ^ (0 + 1))%N with 1024%N; lia).
  change (k ^ 0)%N with 1%N. rewrite round2_whole, number_to_string_whole.
  reflexivity.
Qed.

Lemma formatFileSize_below_1024_witness :
  (0 < 443)%N /\ (443 < 1024)%N /\ formatFileSize 443 = "443 Bytes".
Proof.
  split; [lia|]. split; [lia|].
  exact (formatFileSize_below_1024 443 ltac:(lia) ltac:(lia)).
Defined.

(** X2.  For every positive size below 1024^4 the result is a number and one of
    the four unit labels; the number is the size divided by 1024^i for the
    i with 1024^i <= size < 1024^(i+1), rounded to the nearest hundredth, and
    it lies between 1 and 1024 inclusive. *)
Theorem formatFileSize_shape (bytes : N) :
  (0 < bytes)%N -> (bytes < k ^ 4)%N ->
  let i := floor_log_k bytes in
  let h := round2 bytes (k ^ i) in
  exists unit,
    sizes !! N.to_nat i = Some unit /\
    formatFileSize bytes = number_to_string h +:+ " " +:+ unit /\
    (k ^ i <= bytes < k ^ (i + 1))%N /\
    (2 * k ^ i * h <= 200 * bytes + k ^ i < 2 * k ^ i * (h + 1))%N /\
    (100 <= h <= 102400)%N.
Proof.
  intros Hpos Hlt. cbv zeta.
  destruct (unit_label_present_below_k4 bytes Hlt) as [unit Hunit].
  exists unit. split; [exact Hunit|].
  pose proof (floor_log_k_spec bytes Hpos) as Hidx.
  pose proof (scaled_value_range bytes Hpos) as Hrange.
  assert (Hd : (0 < k ^ floor_log_k bytes)%N)
    by (apply N.neq_0_lt_0, N.pow_nonzero; discriminate).
  pose proof (round2_nearest bytes (k ^ floor_log_k bytes) Hd) as Hnear.
  split; [|split; [exact Hidx|split; [exact Hnear|]]].
  - unfold formatFileSize. destruct (N.eqb_spec bytes 0) as [Hz | _]; [lia|].
    cbv zeta. now rewrite Hunit.
  - generalize dependent (round2 bytes (k ^ floor_log_k bytes)).
    generalize dependent (k ^ floor_log_k bytes)%N.
    intros d _ Hrange Hd h Hnear. nia.
Qed.

Lemma formatFileSize_shape_witness :
  (0 < 1234567)%N /\ (1234567 < k ^ 4)%N /\
  exists unit,
    sizes !! N.to_nat (floor_log_k 1234567) = Some unit /\
    formatFileSize 1234567 =
      number_to_string (round2 1234567 (k ^ floor_log_k 1234567)) +:+ " " +:+ unit /\
    (k ^ floor_log_k 1234567 <= 1234567 < k ^ (floor_log_k 1234567 + 1))%N /\
    (2 * k ^ floor_log_k 1234567 * round2 1234567 (k ^ floor_log_k 1234567)
       <= 200 * 1234567 + k ^ floor_log_k 1234567
       < 2 * k ^ floor_log_k 1234567 * (round2 1234567 (k ^ floor_log_k 1234567) + 1))%N /\
    (100 <= round2 1234567 (k ^ floor_log_k 1234567) <= 102400)%N.
Proof.
  split; [lia|]. split; [vm_compute; reflexivity|].
  exact (formatFileSize_shape 1234567 ltac:(lia) ltac:(vm_compute; reflexivity)).
Defined.

(** X3.  Just below the next power of 1024 the rounding reaches 1024 and the
    unit does not move up: such a size reads "1024" with the smaller unit
    (1048575 bytes read "1024 KB", not "1 MB"). *)
Theorem formatFileSize_rounds_up_to_1024 (bytes i : N) (unit : string) :
  sizes !! N.to_nat i = Some unit ->
  (204799 * k ^ i <= 200 * bytes)%N -> (bytes < k ^ (i + 1))%N ->
  formatFileSize bytes = "1024 " +:+ unit.
Proof.
  intros Hunit Hlo Hhi.
  assert (Hd : (0 < k ^ i)%N) by (apply N.neq_0_lt_0, N.pow_nonzero; discriminate).
  assert (Hpow : (k ^ (i + 1) = 1024 * k ^ i)%N)
    by (rewrite N.pow_add_r; change (k ^ 1)%N with 1024%N; lia).
  assert (Hi : floor_log_k bytes = i) by (apply floor_log_k_unique; lia).
  unfold formatFileSize. destruct (N.eqb_spec bytes 0) as [Hz | _]; [lia|].
  cbv zeta. rewrite Hi, Hunit.
  replace (round2 bytes (k ^ i)) with 102400%N; [reflexivity|].
  unfold round2. apply (N.div_unique _ _ _ (200 * bytes + k ^ i - 204800 * k ^ i)%N); lia.
Qed.

Lemma formatFileSize_rounds_up_to_1024_witness :
  sizes !! N.to_nat 1 = Some "KB" /\
  (204799 * k ^ 1 <= 200 * 1048575)%N /\ (1048575 < k ^ (1 + 1))%N /\
  formatFileSize 1048575 = "1024 KB".
Proof.
  split; [reflexivity|]. split; [vm_compute; discriminate|]. split; [vm_compute; reflexivity|].
  exact (formatFileSize_rounds_up_to_1024 1048575 1 "KB" eq_refl
           ltac:(vm_compute; discriminate) ltac:(vm_compute; reflexivity)).
Defined.

(** ** Property keys *)

Lemma last_char_app (s t : string) :
  t <> EmptyString -> last_char (s +:+ t) = last_char t.
Proof.
  intros Ht. induction s as [|c s IH]; [reflexivity|].
  change (String c s +:+ t) with (String c (s +:+ t)). rewrite <- IH.
  destruct (s +:+ t) eqn:E; [|reflexivity].
  destruct s; cbn in E; [contradiction|discriminate].
Qed.

Lemma tooltipId_key_last (el : string) :
  last_char (Script.tooltipId_key el) = last_char "d".
Proof. unfold Script.tooltipId_key. now rewrite last_char_app. Qed.

(** The dataset key of a tooltip differs from every key that does not end
    in the letter d, so from every other key the script writes. *)
Lemma tooltipId_key_ne (el key : string) :
  last_char key <> last_char "d" -> Script.tooltipId_key el <> key.
Proof. intros Hk Heq. apply Hk. rewrite <- Heq. apply tooltipId_key_last. Qed.

Lemma selection_view_set_prop (key v : string) (st : Script.Page) :
  key <> "fileName.textContent" -> key <> "fileSize.textContent" ->
  key <> "fileInfo.style.display" -> key <> "uploadPrompt.style.display" ->
  selection_view (Script.set_prop key v st) = selection_view st.
Proof.
  intros H1 H2 H3 H4. unfold selection_view, Script.set_prop. cbn.
  by rewrite !lookup_insert_ne.
Qed.

Lemma selection_view_mouseenter (el title : string) (st : Script.Page) :
  selection_view (Script.on_mouseenter el title st) = selection_view st.
Proof.
  unfold Script.on_mouseenter.
  rewrite selection_view_set_prop; [reflexivity|..]; by apply tooltipId_key_ne.
Qed.

(** What one input does to the files of the input and to the summary. *)
Lemma step_selection_view (rnd : Q -> Q) (st : Script.Page) (i : Script.Input) :
  selection_view (Script.step rnd st i) =
    match i with
    | Script.Drop (f :: rest) | Script.Pick (f :: rest) =>
        (f :: rest, (Some (name f), Some (formatFileSize (size f)), Some "flex", Some "none"))
    | Script.Pick [] => ([], (selection_view st).2)
    | Script.RemoveClick =>
        ([], (Script.props st !! "fileName.textContent",
              Script.props st !! "fileSize.textContent", Some "none", Some "block"))
    | Script.LoadSample =>
        ([Script.sample_file],
         (Some "sample_providers.csv", Some "443 Bytes", Some "flex", Some "none"))
    | _ => selection_view st
    end.
Proof.
  destruct i as [ | | |files|files| | |h r| |el title|el|has_logo];
    cbn [Script.step].
  - unfold Script.on_dragenter, Script.dispatch, selection_view. cbn. by simplify_map_eq.
  - unfold Script.on_dragover, Script.dispatch, selection_view. cbn. by simplify_map_eq.
  - unfold Script.on_dragleave, Script.dispatch, selection_view. cbn. by simplify_map_eq.
  - destruct files as [|f rest]; [apply script_empty_drop_keeps_selection|].
    by apply on_drop_view.
  - destruct files as [|f rest]; [reflexivity|apply pick_view].
  - unfold Script.on_remove_click, selection_view. cbn. by simplify_map_eq.
  - unfold Script.on_submit, selection_view. cbn. by simplify_map_eq.
  - unfold Script.on_tick. destruct (find _ _); [|reflexivity].
    unfold Script.show_progress, selection_view. cbn. by simplify_map_eq.
  - unfold Script.loadSample, selection_view. cbn. by simplify_map_eq.
  - apply selection_view_mouseenter.
  - unfold Script.on_mouseleave.
    by destruct (Script.props st !! Script.tooltipId_key el) as [[|c s]|].
  - destruct has_logo; [|reflexivity].
    unfold Script.on_DOMContentLoaded, selection_view. cbn. by simplify_map_eq.
Qed.

(** ** Selection and summary of [script.js] *)

Lemma summary_matches_step (rnd : Q -> Q) (st : Script.Page) (i : Script.Input) :
  summary_matches st -> summary_matches (Script.step rnd st i).
Proof.
  intros Hst.
  change (match (selection_view (Script.step rnd st i)).1 with
          | [] => True
          | f :: _ => (selection_view (Script.step rnd st i)).2 =
              (Some (name f), Some (formatFileSize (size f)), Some "flex", Some "none")
          end).
  rewrite step_selection_view.
  destruct i as [ | | |files|files| | |h r| |el title|el|has_logo];
    try exact Hst; try exact I; try reflexivity.
  - destruct files; [exact Hst|reflexivity].
  - destruct files; [exact I|reflexivity].
Qed.

(** X4.  On every page reached from a fresh load, a non-empty file input goes
    with a summary of its first file: the name, the formatted size, the file
    info shown and the upload prompt hidden. *)
Theorem summary_describes_first_file (rnd : Q -> Q) (checkboxes : list bool)
    (inputs : list Script.Input) :
  summary_matches (Script.run rnd (Script.fresh checkboxes) inputs).
Proof.
  assert (Hgen : forall st, summary_matches st -> summary_matches (Script.run rnd st inputs)).
  { induction inputs as [|i inputs IH]; intros st Hst; [exact Hst|].
    apply (IH (Script.step rnd st i)). by apply summary_matches_step. }
  apply Hgen. exact I.
Qed.

(** X5.  A shown summary does not imply a selected file: when a change event
    arrives with an empty file list after a selection, the guard of the
    listener skips the update, so the input is empty while the summary still
    shows the earlier file. *)
Theorem empty_pick_leaves_summary (f : File) (rest : list File) (st : Script.Page) :
  selection_view (Script.pick [] (Script.pick (f :: rest) st)) =
    ([], (Some (name f), Some (formatFileSize (size f)), Some "flex", Some "none")).
Proof.
  change (Script.pick [] (Script.pick (f :: rest) st))
    with (Script.step (fun q => q) (Script.pick (f :: rest) st) (Script.Pick [])).
  rewrite step_selection_view. now rewrite pick_view.
Qed.

(** X6.  A drop and a pick of the same non-empty list leave the same input and
    the same summary, and neither depends on what was selected before. *)
Theorem selection_replaced_wholesale (f : File) (rest : list File)
    (st1 st2 : Script.Page) :
  selection_view (Script.on_drop (Script.new_event (f :: rest)) st1).2 =
    selection_view (Script.pick (f :: rest) st2).
Proof. rewrite pick_view. by apply on_drop_view. Qed.

(** X7.  After a removal the file info is hidden and the input is empty, but the
    name and the size written for the removed file stay in the hidden
    elements. *)
Theorem removal_keeps_hidden_texts (f : File) (rest : list File) (st : Script.Page) :
  selection_view
    (Script.on_remove_click (Script.new_event [])
       (Script.on_drop (Script.new_event (f :: rest)) st).2).2 =
    ([], (Some (name f), Some (formatFileSize (size f)), Some "none", Some "block")).
Proof.
  change ((Script.on_remove_click (Script.new_event [])
             (Script.on_drop (Script.new_event (f :: rest)) st).2).2)
    with (Script.step (fun q => q) (Script.on_drop (Script.new_event (f :: rest)) st).2
            Script.RemoveClick).
  rewrite step_selection_view.
  pose proof (on_drop_view f rest (Script.new_event (f :: rest)) st eq_refl) as Hview.
  unfold selection_view in Hview. injection Hview; intros. congruence.
Qed.

(** X8.  [loadSample] replaces whatever was selected by the one sample file of 443
    bytes, shows its summary, checks every option box without adding or
    dropping one, and raises one alert. *)
Theorem loadSample_effect (st : Script.Page) :
  let st' := Script.loadSample st in
  selection_view st' =
    ([mkFile "sample_providers.csv" 443 "text/csv"],
     (Some "sample_providers.csv", Some "443 Bytes", Some "flex", Some "none")) /\
  length (Script.ai_options st') = length (Script.ai_options st) /\
  Forall (fun b => b = true) (Script.ai_options st') /\
  length (Script.alerts st') = S (length (Script.alerts st)) /\
  Script.intervals st' = Script.intervals st /\
  Script.submitBtn_disabled st' = Script.submitBtn_disabled st.
Proof.
  cbv zeta. split.
  - change (Script.loadSample st) with (Script.step (fun q => q) st Script.LoadSample).
    by rewrite step_selection_view.
  - unfold Script.loadSample. cbn.
    split; [apply length_map|]. split; [|split; [|split; reflexivity]].
    + apply Forall_fmap. by apply Forall_true.
    + rewrite length_app. cbn. lia.
Qed.

(** ** Drag events *)

(** X9.  Each of the four drag events ends with its default action prevented and
    its propagation stopped, in both scripts; entering or hovering always
    leaves the highlighted style, leaving or dropping always the plain one,
    whatever the style was before. *)
Theorem drag_events_prevent_and_style (e : Event) (st : Script.Page) (st0 : Part000.Page) :
  let done := mkEvent (dataTransfer_files e) true true in
  let style := fun p : Script.Page =>
    (Script.props p !! "dropArea.style.borderColor",
     Script.props p !! "dropArea.style.backgroundColor") in
  (Script.on_dragenter e st).1 = done /\ (Script.on_dragover e st).1 = done /\
  (Script.on_dragleave e st).1 = done /\ (Script.on_drop e st).1 = done /\
  style (Script.on_dragenter e st).2 = (Some "#2563eb", Some "#f8fafc") /\
  style (Script.on_dragover e st).2 = (Some "#2563eb", Some "#f8fafc") /\
  style (Script.on_dragleave e st).2 = (Some "#e2e8f0", Some "") /\
  style (Script.on_drop e st).2 = (Some "#e2e8f0", Some "") /\
  (Part000.on_dragenter e st0).1 = done /\ (Part000.on_dragover e st0).1 = done /\
  (Part000.on_dragleave e st0).1 = done /\ (Part000.on_drop e st0).1 = done /\
  Part000.dropZone_dragging (Part000.on_dragenter e st0).2 = true /\
  Part000.dropZone_dragging (Part000.on_dragover e st0).2 = true /\
  Part000.dropZone_dragging (Part000.on_dragleave e st0).2 = false /\
  Part000.dropZone_dragging (Part000.on_drop e st0).2.1 = false.
Proof.
  cbv zeta.
  assert (Hdrop : (Script.props (Script.on_drop e st).2 !! "dropArea.style.borderColor",
                   Script.props (Script.on_drop e st).2 !! "dropArea.style.backgroundColor")
                  = (Some "#e2e8f0", Some "")).
  { unfold Script.on_drop, Script.dispatch. cbn.
    destruct (dataTransfer_files e); cbn; by simplify_map_eq. }
  assert (Hdrop0 : Part000.dropZone_dragging (Part000.on_drop e st0).2.1 = false).
  { unfold Part000.on_drop. cbn. by destruct (dataTransfer_files e). }
  repeat apply conj; try reflexivity; try exact Hdrop; try exact Hdrop0.
  - unfold Script.on_dragenter, Script.dispatch. cbn. by simplify_map_eq.
  - unfold Script.on_dragover, Script.dispatch. cbn. by simplify_map_eq.
  - unfold Script.on_dragleave, Script.dispatch. cbn. by simplify_map_eq.
Qed.

(** ** Submissions and timers *)

(** What one input does to the overlay, to the dataset entry of the form and
    to the submit button. *)
Lemma step_submit_state (rnd : Q -> Q) (st : Script.Page) (i : Script.Input) :
  (Script.props (Script.step rnd st i) !! "processingOverlay.style.display",
   Script.props (Script.step rnd st i) !! "uploadForm.dataset.progressInterval",
   Script.submitBtn_disabled (Script.step rnd st i)) =
    match i with
    | Script.Submit => (Some "flex", Some (dec (Script.next_handle st)), true)
    | _ => (Script.props st !! "processingOverlay.style.display",
            Script.props st !! "uploadForm.dataset.progressInterval",
            Script.submitBtn_disabled st)
    end.
Proof.
  destruct i as [ | | |files|files| | |h r| |el title|el|has_logo];
    cbn [Script.step].
  - unfold Script.on_dragenter, Script.dispatch. cbn. by simplify_map_eq.
  - unfold Script.on_dragover, Script.dispatch. cbn. by simplify_map_eq.
  - unfold Script.on_dragleave, Script.dispatch. cbn. by simplify_map_eq.
  - unfold Script.on_drop, Script.dispatch. cbn. destruct files; cbn; by simplify_map_eq.
  - unfold Script.pick, Script.on_change. cbn. destruct files; cbn; by simplify_map_eq.
  - unfold Script.on_remove_click. cbn. by simplify_map_eq.
  - unfold Script.on_submit. cbn. by simplify_map_eq.
  - unfold Script.on_tick. destruct (find _ _); [|reflexivity].
    unfold Script.show_progress. cbn. by simplify_map_eq.
  - unfold Script.loadSample. cbn. by simplify_map_eq.
  - unfold Script.on_mouseenter. cbn.
    rewrite !lookup_insert_ne by (by apply tooltipId_key_ne). reflexivity.
  - unfold Script.on_mouseleave.
    by destruct (Script.props st !! Script.tooltipId_key el) as [[|c s]|].
  - destruct has_logo; [|reflexivity].
    unfold Script.on_DOMContentLoaded. cbn. by simplify_map_eq.
Qed.

(** X10.  Once the form has been submitted, no later input enables the submit
    button again or hides the processing overlay. *)
Theorem submit_state_is_permanent (rnd : Q -> Q) (st : Script.Page)
    (post : list Script.Input) :
  let st' := Script.run rnd (Script.on_submit st) post in
  Script.submitBtn_disabled st' = true /\
  Script.props st' !! "processingOverlay.style.display" = Some "flex".
Proof.
  cbv zeta.
  assert (Hgen : forall s,
    Script.submitBtn_disabled s = true ->
    Script.props s !! "processingOverlay.style.display" = Some "flex" ->
    Script.submitBtn_disabled (Script.run rnd s post) = true /\
    Script.props (Script.run rnd s post) !! "processingOverlay.style.display" = Some "flex").
  { induction post as [|i post IH]; intros s Hd Ho; [by split|].
    pose proof (step_submit_state rnd s i) as Hstep.
    apply (IH (Script.step rnd s i)); destruct i; injection Hstep; intros; congruence. }
  apply Hgen; [reflexivity|].
  pose proof (step_submit_state rnd st Script.Submit) as Hstep.
  injection Hstep; intros; assumption.
Qed.

Lemma submissions_cons (i : Script.Input) (inputs : list Script.Input) :
  submissions (i :: inputs) =
    match i with
    | Script.Submit => S (submissions inputs)
    | _ => submissions inputs
    end.
Proof. by destruct i. Qed.

(** The timer table and the next handle after a run, from any page whose
    handles are 1, ..., n. *)
Lemma run_handles (rnd : Q -> Q) (inputs : list Script.Input) (st : Script.Page) (n : nat) :
  map Script.handle (Script.intervals st) = map N.of_nat (seq 1 n) ->
  Forall (fun t => Script.delay t = 500%N) (Script.intervals st) ->
  Script.next_handle st = N.of_nat (S n) ->
  let st' := Script.run rnd st inputs in
  map Script.handle (Script.intervals st') = map N.of_nat (seq 1 (n + submissions inputs)) /\
  Forall (fun t => Script.delay t = 500%N) (Script.intervals st') /\
  Script.next_handle st' = N.of_nat (S (n + submissions inputs)).
Proof.
  cbv zeta. revert st n. induction inputs as [|i inputs IH]; intros st n Hh Hd Hn.
  - rewrite Nat.add_0_r. by repeat split.
  - rewrite submissions_cons.
    pose proof (step_timers rnd st i) as Hst.
    change (Script.run rnd st (i :: inputs))
      with (Script.run rnd (Script.step rnd st i) inputs).
    destruct i; destruct Hst as [Hi Hnext];
      try (apply IH; [by rewrite Hi|by rewrite Hi|by rewrite Hnext]).
    + replace (n + S (submissions inputs))%nat with (S n + submissions inputs)%nat by lia.
      apply IH.
      * rewrite Hi, map_app, Hh, seq_S, map_app, Hn. reflexivity.
      * rewrite Hi. apply Forall_app. split; [exact Hd|by apply Forall_singleton].
      * rewrite Hnext, Hn. lia.
    + apply IH; [|rewrite Hi; apply Forall_fmap; eapply Forall_impl; [exact Hd|]
                 |by rewrite Hnext].
      * rewrite Hi, <- Hh, <- list_fmap_compose. apply list_fmap_ext.
        intros ? t _. apply advance_handle.
      * intros t Ht. cbn. by rewrite advance_delay.
Qed.

(** X11.  Every submission adds one timer and nothing ever removes one: after a
    run from a fresh page that contains n submissions the timer table holds
    n timers, with the handles 1, ..., n in this order, each with a delay of
    500 ms. *)
Theorem one_timer_per_submission (rnd : Q -> Q) (checkboxes : list bool)
    (inputs : list Script.Input) :
  let st := Script.run rnd (Script.fresh checkboxes) inputs in
  map Script.handle (Script.intervals st) = map N.of_nat (seq 1 (submissions inputs)) /\
  Forall (fun t => Script.delay t = 500%N) (Script.intervals st) /\
  length (Script.intervals st) = submissions inputs.
Proof.
  cbv zeta.
  destruct (run_handles rnd inputs (Script.fresh checkboxes) 0 eq_refl
              (Forall_nil_2 _) eq_refl) as (Hh & Hd & _).
  cbn [Nat.add] in Hh. split; [exact Hh|]. split; [exact Hd|].
  apply (f_equal length) in Hh. by rewrite !length_map, length_seq in Hh.
Qed.

Lemma run_snoc (rnd : Q -> Q) (st : Script.Page) (inputs : list Script.Input)
    (i : Script.Input) :
  Script.run rnd st (inputs ++ [i]) = Script.step rnd (Script.run rnd st inputs) i.
Proof. unfold Script.run. by rewrite foldl_app. Qed.

(** X12.  The dataset of the form remembers one handle only, that of the latest
    submission: nothing before the first submission, and n after the n-th,
    so that the handles of all earlier timers are lost. *)
Theorem dataset_holds_latest_handle (rnd : Q -> Q) (checkboxes : list bool)
    (inputs : list Script.Input) :
  Script.props (Script.run rnd (Script.fresh checkboxes) inputs)
    !! "uploadForm.dataset.progressInterval" =
    match submissions inputs with
    | O => None
    | S n => Some (dec (N.of_nat (S n)))
    end.
Proof.
  induction inputs as [|i inputs IH] using rev_ind; [reflexivity|].
  rewrite run_snoc.
  pose proof (step_submit_state rnd (Script.run rnd (Script.fresh checkboxes) inputs) i) as Hstep.
  destruct (run_handles rnd inputs (Script.fresh checkboxes) 0 eq_refl
              (Forall_nil_2 _) eq_refl) as (_ & _ & Hnext).
  cbn [Nat.add] in Hnext.
  assert (Hsub : submissions (inputs ++ [i]) =
                 match i with
                 | Script.Submit => S (submissions inputs)
                 | _ => submissions inputs
                 end).
  { unfold submissions. rewrite List.filter_app, length_app. destruct i; cbn; lia. }
  rewrite Hsub.
  apply (f_equal (fun x => snd (fst x))) in Hstep.
  destruct i; cbn [fst snd] in Hstep; rewrite Hstep; try exact IH.
  by rewrite Hnext.
Qed.

(** ** The progress counter in detail *)

Lemma firings_cons (h : N) (i : Script.Input) (inputs : list Script.Input) :
  firings h (i :: inputs) =
    match i with
    | Script.Tick h' _ => if (h' =? h)%N then S (firings h inputs) else firings h inputs
    | _ => firings h inputs
    end.
Proof. destruct i; try reflexivity. unfold firings. cbn. by destruct (h0 =? h)%N. Qed.

(** The counter of a timer after one input: a firing of this timer applies
    [tick_progress], nothing else touches it. *)
Lemma progress_of_step_eq (rnd : Q -> Q) (h : N) (st : Script.Page) (i : Script.Input) (p : Q) :
  progress_of h st = Some p ->
  progress_of h (Script.step rnd st i) =
    Some match i with
         | Script.Tick h' r => if (h' =? h)%N then Script.tick_progress rnd p r else p
         | _ => p
         end.
Proof.
  intros Hp. unfold progress_of in *.
  destruct (find _ (Script.intervals st)) as [t|] eqn:Hfind; [|discriminate].
  injection Hp as <-.
  pose proof (step_timers rnd st i) as Hst.
  destruct i; destruct Hst as [-> _]; try (by rewrite Hfind).
  - by rewrite (find_app_found _ _ _ t Hfind).
  - rewrite find_map_advance, Hfind. cbn. unfold Script.advance.
    apply find_some in Hfind as [_ Heq]. apply N.eqb_eq in Heq. rewrite Heq.
    rewrite (N.eqb_sym h h0). by destruct (h0 =? h)%N.
Qed.

Section TenPerFiring.

Variable rnd : Q -> Q.
Hypothesis Hrnd : Rounding rnd.
Hypothesis Hexact : forall z : Z, (0 <= z <= 90)%Z -> (rnd (inject_Z z) == inject_Z z)%Q.

Lemma tick_progress_ten (p r : Q) (m : Z) :
  (0 <= m)%Z -> (0 <= r)%Q -> (r < 1)%Q ->
  (rnd p == p)%Q -> (0 <= p)%Q -> (p <= 90)%Q -> (p <= inject_Z (10 * m))%Q ->
  (Script.tick_progress rnd p r <= inject_Z (10 * (m + 1)))%Q.
Proof.
  intros Hm Hr0 Hr1 Hrep Hp0 Hp90 Hpm.
  destruct (tick_progress_bounds rnd Hrnd p r Hrep Hp0 Hp90 Hr0) as (_ & Hcap & _).
  destruct (Z_le_gt_dec (10 * (m + 1)) 90) as [Hsmall | Hbig].
  - assert (Hx : (rnd (r * 10) <= 10)%Q).
    { pose proof (Hexact 10 ltac:(lia)) as E. change (inject_Z 10) with 10%Q in E.
      assert (rnd (r * 10) <= rnd 10)%Q by (apply (rnd_mono rnd Hrnd); lra). lra. }
    assert (Hsum : (inject_Z (10 * (m + 1)) == inject_Z (10 * m) + 10)%Q).
    { replace (10 * (m + 1))%Z with (10 * m + 10)%Z by lia.
      rewrite inject_Z_plus. reflexivity. }
    assert (Hq : (rnd (p + rnd (r * 10)) <= inject_Z (10 * (m + 1)))%Q).
    { pose proof (Hexact (10 * (m + 1))%Z ltac:(lia)) as E.
      assert (rnd (p + rnd (r * 10)) <= rnd (inject_Z (10 * (m + 1))))%Q
        by (apply (rnd_mono rnd Hrnd); lra).
      lra. }
    unfold Script.tick_progress. cbv zeta.
    destruct (Qlt_le_dec 90 (rnd (p + rnd (r * 10)))) as [Hover | _]; [lra|exact Hq].
  - eapply Qle_trans; [exact Hcap|]. change 90%Q with (inject_Z 90).
    rewrite <- Zle_Qle. lia.
Qed.

Lemma progress_of_run_ten (h : N) (inputs : list Script.Input) (st : Script.Page)
    (p : Q) (m : nat) :
  Forall Script.valid_input inputs -> page_ok rnd st ->
  progress_of h st = Some p -> (p <= inject_Z (10 * Z.of_nat m))%Q ->
  exists p', progress_of h (Script.run rnd st inputs) = Some p' /\
    (p' <= inject_Z (10 * Z.of_nat (m + firings h inputs)))%Q.
Proof.
  revert st p m. induction inputs as [|i inputs IH]; intros st p m Hvalid Hok Hp Hpm.
  - exists p. rewrite Nat.add_0_r. by split.
  - apply Forall_cons in Hvalid as [Hi Hrest].
    pose proof (progress_of_step_eq rnd h st i p Hp) as Hstep.
    pose proof (page_ok_step rnd Hrnd st i Hi Hok) as Hok'.
    assert (Ht : exists t, find (fun t => (Script.handle t =? h)%N) (Script.intervals st) = Some t
                           /\ Script.progress t = p).
    { unfold progress_of in Hp. destruct (find _ _) as [t|]; [|discriminate].
      exists t. split; [reflexivity|]. by injection Hp. }
    destruct Ht as (t & Hfind & <-).
    destruct (find_handle_ok rnd h st t Hok Hfind) as (_ & _ & Hrep & Hp0 & Hp90).
    rewrite firings_cons.
    change (Script.run rnd st (i :: inputs))
      with (Script.run rnd (Script.step rnd st i) inputs).
    destruct i; try (by apply (IH _ _ m Hrest Hok' Hstep)).
    destruct (h0 =? h)%N; [|by apply (IH _ _ m Hrest Hok' Hstep)].
    replace (m + S (firings h inputs))%nat with (S m + firings h inputs)%nat by lia.
    apply (IH _ _ (S m) Hrest Hok' Hstep).
    replace (Z.of_nat (S m)) with (Z.of_nat m + 1)%Z by lia.
    destruct Hi as [Hr0 Hr1]. apply tick_progress_ten; try assumption. lia.
Qed.

End TenPerFiring.

(** X13.  A firing adds less than 10 before rounding, so after n firings of its
    timer the counter of a submission is at most 10 n: the processing text
    still reads "Validating file format..." after the first two firings, and
    the cap of 90 is not reached before the ninth. *)
Theorem progress_at_most_ten_per_firing (rnd : Q -> Q) (checkboxes : list bool)
    (pre post : list Script.Input) :
  Rounding rnd ->
  (forall z : Z, (0 <= z <= 90)%Z -> (rnd (inject_Z z) == inject_Z z)%Q) ->
  Forall Script.valid_input pre ->
  Forall Script.valid_input post ->
  let st0 := Script.run rnd (Script.fresh checkboxes) pre in
  let h := Script.next_handle st0 in
  exists p,
    progress_of h (Script.run rnd (Script.on_submit st0) post) = Some p /\
    (p <= inject_Z (10 * Z.of_nat (firings h post)))%Q /\
    ((firings h post <= 2)%nat -> Script.processing_text p = "Validating file format...") /\
    ((firings h post < 9)%nat -> (p < 90)%Q).
Proof.
  intros Hrnd Hexact Hpre Hpost. cbv zeta.
  set (st0 := Script.run rnd (Script.fresh checkboxes) pre).
  assert (Hok0 : page_ok rnd st0) by (apply page_ok_run; [exact Hrnd|exact Hpre|apply page_ok_fresh]).
  assert (Hok1 : page_ok rnd (Script.on_submit st0)).
  { change (Script.on_submit st0) with (Script.step rnd st0 Script.Submit).
    by apply page_ok_step. }
  pose proof (progress_of_submit rnd st0 Hok0) as Hstart.
  destruct (progress_of_run_ten rnd Hrnd Hexact _ post _ 0%Q 0 Hpost Hok1 Hstart)
    as (p & Hp & Hbound); [apply Qle_refl|].
  cbn [Nat.add] in Hbound. exists p. split; [exact Hp|]. split; [exact Hbound|].
  split.
  - intros Hn. unfold Script.processing_text.
    destruct (Qlt_le_dec p 30) as [_ | H30]; [reflexivity|exfalso].
    assert (inject_Z (10 * Z.of_nat (firings (Script.next_handle st0) post)) <= inject_Z 20)%Q
      by (rewrite <- Zle_Qle; lia).
    change (inject_Z 20) with 20%Q in *. lra.
  - intros Hn.
    assert (inject_Z (10 * Z.of_nat (firings (Script.next_handle st0) post)) <= inject_Z 80)%Q
      by (rewrite <- Zle_Qle; lia).
    change (inject_Z 80) with 80%Q in *. lra.
Qed.

Lemma progress_at_most_ten_per_firing_witness :
  Rounding (fun q => q) /\
  (forall z : Z, (0 <= z <= 90)%Z -> (inject_Z z == inject_Z z)%Q) /\
  Forall Script.valid_input [Script.Drop [sample_csv]] /\
  Forall Script.valid_input [Script.Tick 1 (99 # 100); Script.Tick 1 (99 # 100)] /\
  let post := [Script.Tick 1 (99 # 100); Script.Tick 1 (99 # 100)] in
  let st0 := Script.run (fun q => q) (Script.fresh []) [Script.Drop [sample_csv]] in
  let h := Script.next_handle st0 in
  exists p,
    progress_of h (Script.run (fun q => q) (Script.on_submit st0) post) = Some p /\
    (p <= inject_Z (10 * Z.of_nat (firings h post)))%Q /\
    ((firings h post <= 2)%nat -> Script.processing_text p = "Validating file format...") /\
    ((firings h post < 9)%nat -> (p < 90)%Q).
Proof.
  assert (Hexact : forall z : Z, (0 <= z <= 90)%Z -> (inject_Z z == inject_Z z)%Q)
    by (intros; reflexivity).
  assert (Hpre : Forall Script.valid_input [Script.Drop [sample_csv]])
    by (repeat constructor).
  assert (Hpost : Forall Script.valid_input [Script.Tick 1 (99 # 100); Script.Tick 1 (99 # 100)])
    by (repeat constructor; cbn; lra).
  split; [exact Rounding_exact|]. split; [exact Hexact|]. split; [exact Hpre|].
  split; [exact Hpost|].
  exact (progress_at_most_ten_per_firing (fun q => q) [] [Script.Drop [sample_csv]]
           [Script.Tick 1 (99 # 100); Script.Tick 1 (99 # 100)]
           Rounding_exact Hexact Hpre Hpost).
Defined.

Lemma Math_round_bounds (p : Q) :
  (0 <= p)%Q -> (p <= 90)%Q -> (0 <= Script.Math_round p <= 90)%Z.
Proof.
  intros Hp0 Hp90. unfold Script.Math_round. split.
  - change 0%Z with (Qfloor 0). apply Qfloor_resp_le. lra.
  - change 90%Z with (Qfloor (90 + (1 # 2))). apply Qfloor_resp_le. lra.
Qed.

Lemma on_tick_found (rnd : Q -> Q) (h : N) (r : Q) (st : Script.Page) (t : Script.Interval) :
  find (fun t => (Script.handle t =? h)%N) (Script.intervals st) = Some t ->
  let p := Script.tick_progress rnd (Script.progress t) r in
  Script.progressBar_width (Script.on_tick rnd h r st) = Some p /\
  Script.props (Script.on_tick rnd h r st) !! "progressText.textContent" =
    Some (Script.dec_int (Script.Math_round p) +:+ "% Complete") /\
  Script.props (Script.on_tick rnd h r st) !! "processingText.textContent" =
    Some (Script.processing_text p).
Proof.
  intros Hfind. cbv zeta. unfold Script.on_tick. rewrite Hfind.
  unfold Script.show_progress. cbn. split; [reflexivity|]. split; by simplify_map_eq.
Qed.

(** X14.  When a timer of a page reached from a fresh load fires, the width of
    the progress bar is the new counter, and the progress text is a whole
    percentage between 0 and 90 followed by "% Complete": 100 is never
    shown. *)
Theorem tick_shows_whole_percentage (rnd : Q -> Q) (checkboxes : list bool)
    (pre : list Script.Input) (h : N) (r : Q) (t : Script.Interval) :
  Rounding rnd ->
  Forall Script.valid_input pre ->
  (0 <= r)%Q ->
  let st := Script.run rnd (Script.fresh checkboxes) pre in
  find (fun t => (Script.handle t =? h)%N) (Script.intervals st) = Some t ->
  let p := Script.tick_progress rnd (Script.progress t) r in
  let st' := Script.on_tick rnd h r st in
  Script.progressBar_width st' = Some p /\
  Script.props st' !! "progressText.textContent" =
    Some (Script.dec_int (Script.Math_round p) +:+ "% Complete") /\
  (0 <= Script.Math_round p <= 90)%Z.
Proof.
  intros Hrnd Hpre Hr. cbv zeta. intros Hfind.
  assert (Hok : page_ok rnd (Script.run rnd (Script.fresh checkboxes) pre))
    by (apply page_ok_run; [exact Hrnd|exact Hpre|apply page_ok_fresh]).
  destruct (find_handle_ok rnd h _ t Hok Hfind) as (_ & _ & Hrep & Hp0 & Hp90).
  destruct (tick_progress_bounds rnd Hrnd _ r Hrep Hp0 Hp90 Hr) as (Hle & Hcap & _).
  destruct (on_tick_found rnd h r _ t Hfind) as (Hw & Htext & _).
  split; [exact Hw|]. split; [exact Htext|].
  apply Math_round_bounds; [lra|exact Hcap].
Qed.

Lemma tick_shows_whole_percentage_witness :
  Rounding (fun q => q) /\
  Forall Script.valid_input [Script.Submit] /\
  (0 <= 1 # 2)%Q /\
  let st := Script.run (fun q => q) (Script.fresh []) [Script.Submit] in
  find (fun t => (Script.handle t =? 1)%N) (Script.intervals st)
    = Some (Script.mkInterval 1 500 0) /\
  let p := Script.tick_progress (fun q => q) (Script.progress (Script.mkInterval 1 500 0)) (1 # 2) in
  let st' := Script.on_tick (fun q => q) 1 (1 # 2) st in
  Script.progressBar_width st' = Some p /\
  Script.props st' !! "progressText.textContent" =
    Some (Script.dec_int (Script.Math_round p) +:+ "% Complete") /\
  (0 <= Script.Math_round p <= 90)%Z.
Proof.
  assert (Hpre : Forall Script.valid_input [Script.Submit]) by (repeat constructor).
  assert (Hr : (0 <= 1 # 2)%Q) by lra.
  split; [exact Rounding_exact|]. split; [exact Hpre|]. split; [exact Hr|].
  split; [reflexivity|].
  exact (tick_shows_whole_percentage (fun q => q) [] [Script.Submit] 1 (1 # 2)
           (Script.mkInterval 1 500 0) Rounding_exact Hpre Hr eq_refl).
Defined.

(** X15.  The cap is absorbing.  Once the counter of a timer equals 90 it equals 90
    after every later input, and every later firing of that timer writes
    "90% Complete" and "Cleaning and enriching data...". *)
Theorem progress_stays_at_90 (rnd : Q -> Q) (checkboxes : list bool)
    (pre post : list Script.Input) (h : N) (p r : Q) :
  Rounding rnd ->
  Forall Script.valid_input pre ->
  Forall Script.valid_input post ->
  (0 <= r)%Q ->
  progress_of h (Script.run rnd (Script.fresh checkboxes) pre) = Some p ->
  (p == 90)%Q ->
  let st' := Script.on_tick rnd h r
               (Script.run rnd (Script.run rnd (Script.fresh checkboxes) pre) post) in
  (exists p', progress_of h st' = Some p' /\ (p' == 90)%Q) /\
  Script.props st' !! "progressText.textContent" = Some "90% Complete" /\
  Script.props st' !! "processingText.textContent" = Some "Cleaning and enriching data...".
Proof.
  intros Hrnd Hpre Hpost Hr Hp H90. cbv zeta.
  set (st := Script.run rnd (Script.fresh checkboxes) pre) in *.
  assert (Hok : page_ok rnd st)
    by (apply page_ok_run; [exact Hrnd|exact Hpre|apply page_ok_fresh]).
  destruct (progress_of_run rnd Hrnd h post st p Hpost Hok Hp) as (p1 & Hp1 & Hle1 & Hcap1).
  assert (Hok1 : page_ok rnd (Script.run rnd st post)) by (by apply page_ok_run).
  set (st1 := Script.run rnd st post) in *.
  assert (Ht : exists t, find (fun t => (Script.handle t =? h)%N) (Script.intervals st1) = Some t
                         /\ Script.progress t = p1).
  { unfold progress_of in Hp1. destruct (find _ _) as [t|]; [|discriminate].
    exists t. split; [reflexivity|]. by injection Hp1. }
  destruct Ht as (t & Hfind & Hpt).
  destruct (find_handle_ok rnd h st1 t Hok1 Hfind) as (_ & _ & Hrep & Hp0 & Hp90).
  destruct (tick_progress_bounds rnd Hrnd _ r Hrep Hp0 Hp90 Hr) as (Hle & Hcap & _).
  destruct (on_tick_found rnd h r st1 t Hfind) as (_ & Htext & Hproc).
  set (p' := Script.tick_progress rnd (Script.progress t) r) in *.
  assert (Hp' : (p' == 90)%Q) by (rewrite Hpt in Hle; lra).
  split; [|split].
  - exists p'. split; [|exact Hp'].
    change (Script.on_tick rnd h r st1) with (Script.step rnd st1 (Script.Tick h r)).
    rewrite (progress_of_step_eq rnd h st1 (Script.Tick h r) p1 Hp1).
    rewrite N.eqb_refl. unfold p'. by rewrite Hpt.
  - rewrite Htext. unfold Script.Math_round.
    rewrite (Qfloor_comp (p' + (1 # 2)) (90 + (1 # 2))) by (rewrite Hp'; reflexivity).
    reflexivity.
  - rewrite Hproc. unfold Script.processing_text.
    destruct (Qlt_le_dec p' 30); [lra|]. destruct (Qlt_le_dec p' 60); [lra|]. reflexivity.
Qed.

Lemma progress_stays_at_90_witness :
  let ticks := repeat (Script.Tick 1 (99 # 100)) 10 in
  Rounding (fun q => q) /\
  Forall Script.valid_input (Script.Submit :: ticks) /\
  Forall Script.valid_input [Script.Tick 1 (1 # 2)] /\
  (0 <= 1 # 3)%Q /\
  progress_of 1 (Script.run (fun q => q) (Script.fresh []) (Script.Submit :: ticks)) = Some 90%Q /\
  (90 == 90)%Q /\
  let st' := Script.on_tick (fun q => q) 1 (1 # 3)
               (Script.run (fun q => q)
                  (Script.run (fun q => q) (Script.fresh []) (Script.Submit :: ticks))
                  [Script.Tick 1 (1 # 2)]) in
  (exists p', progress_of 1 st' = Some p' /\ (p' == 90)%Q) /\
  Script.props st' !! "progressText.textContent" = Some "90% Complete" /\
  Script.props st' !! "processingText.textContent" = Some "Cleaning and enriching data...".
Proof.
  cbv zeta.
  assert (Hpre : Forall Script.valid_input
                   (Script.Submit :: repeat (Script.Tick 1 (99 # 100)) 10))
    by (repeat constructor; cbn; lra).
  assert (Hpost : Forall Script.valid_input [Script.Tick 1 (1 # 2)])
    by (repeat constructor; cbn; lra).
  assert (Hr : (0 <= 1 # 3)%Q) by lra.
  assert (Hp : progress_of 1 (Script.run (fun q => q) (Script.fresh [])
                 (Script.Submit :: repeat (Script.Tick 1 (99 # 100)) 10)) = Some 90%Q)
    by (vm_compute; reflexivity).
  assert (H90 : (90 == 90)%Q) by reflexivity.
  split; [exact Rounding_exact|]. split; [exact Hpre|]. split; [exact Hpost|].
  split; [exact Hr|]. split; [exact Hp|]. split; [exact H90|].
  exact (progress_stays_at_90 (fun q => q) []
           (Script.Submit :: repeat (Script.Tick 1 (99 # 100)) 10)
           [Script.Tick 1 (1 # 2)] 1 90 (1 # 3) Rounding_exact Hpre Hpost Hr Hp H90).
Defined.

(** ** Tooltips *)

Lemma step_tooltips (rnd : Q -> Q) (st : Script.Page) (i : Script.Input) :
  Script.body_tooltips (Script.step rnd st i) =
    Script.body_tooltips st ++ entered_titles [i].
Proof.
  destruct i as [ | | |files|files| | |h r| |el title|el|has_logo];
    cbn; rewrite ?app_nil_r; try reflexivity.
  - by destruct files.
  - by destruct files.
  - unfold Script.on_tick. by destruct (find _ _).
  - unfold Script.on_mouseleave.
    by destruct (Script.props st !! Script.tooltipId_key el) as [[|c s]|].
  - by destruct has_logo.
Qed.

(** X16.  No tooltip is ever taken off the page: after any run the body holds the
    tooltips it had, followed by one tooltip per [mouseenter], in order.  The
    [mouseleave] listener that should remove the tooltip of an element finds
    a string in the dataset, raises a TypeError and changes nothing. *)
Theorem tooltips_are_never_removed (rnd : Q -> Q) (st : Script.Page)
    (inputs : list Script.Input) (el title : string) :
  Script.body_tooltips (Script.run rnd st inputs) =
    Script.body_tooltips st ++ entered_titles inputs /\
  Script.on_mouseleave el (Script.on_mouseenter el title st) =
    (Script.on_mouseenter el title st, Some "TypeError").
Proof.
  split.
  - revert st. induction inputs as [|i inputs IH]; intros st; [by rewrite app_nil_r|].
    change (Script.run rnd st (i :: inputs))
      with (Script.run rnd (Script.step rnd st i) inputs).
    rewrite IH, step_tooltips, <- app_assoc. f_equal.
    unfold entered_titles. cbn. by destruct i.
  - unfold Script.on_mouseleave.
    assert (Hkey : Script.props (Script.on_mouseenter el title st)
                     !! Script.tooltipId_key el = Some "[object HTMLDivElement]")
      by (unfold Script.on_mouseenter; cbn; apply lookup_insert_eq).
    by rewrite Hkey.
Qed.

(** ** The variant *)

(** X17.  The drop listener of the variant, case by case: without files it
    empties the input and ends in a TypeError with the markup untouched;
    with files it stores all of them, renders the first and ends normally. *)
Theorem variant_drop_outcome (e : Event) (st : Part000.Page) :
  (Part000.on_drop e st).2 =
    match dataTransfer_files e with
    | [] =>
        (Part000.mkPage false [] (Part000.selectedFileContainer_innerHTML st)
           (Part000.progressContainer_display st) (Part000.picker_opened st)
           (Part000.intervals st),
         Part000.Throw "TypeError")
    | f :: rest =>
        (Part000.mkPage false (f :: rest)
           ("<strong>" +:+ name f +:+ "</strong> (" +:+ toFixed2 (size f) 1024 +:+ " KB)")
           (Part000.progressContainer_display st) (Part000.picker_opened st)
           (Part000.intervals st),
         Part000.Normal)
    end.
Proof. unfold Part000.on_drop. cbn. by destruct (dataTransfer_files e). Qed.

(** X18.  The change listener of the variant never raises: it looks at the length
    of the list before it reads the first file, and leaves the page as it is
    when the picker returns no file. *)
Theorem variant_change_never_throws (files : list File) (st : Part000.Page) :
  (Part000.on_change st).2 = Part000.Normal /\
  (Part000.on_change (Part000.set_files files st)).2 = Part000.Normal /\
  Part000.on_change (Part000.set_files [] st) = (Part000.set_files [] st, Part000.Normal).
Proof.
  split; [|split; [|reflexivity]].
  - unfold Part000.on_change. by destruct (Part000.fileInput_files st).
  - unfold Part000.on_change. cbn. by destruct files.
Qed.

(** X19.  The variant always prints kilobytes with two decimals, so a file of at
    most 5 bytes is shown with a size of "0.00 KB". *)
Theorem variant_tiny_file_shows_zero (f : File) (st : Part000.Page) :
  (size f <= 5)%N ->
  Part000.showFile (Some f) st =
    (Part000.set_innerHTML ("<strong>" +:+ name f +:+ "</strong> (0.00 KB)") st,
     Part000.Normal).
Proof.
  intros Hsize. unfold Part000.showFile, toFixed2.
  replace (round2 (size f) 1024) with 0%N; [reflexivity|].
  unfold round2. symmetry. apply N.div_small. lia.
Qed.

Lemma variant_tiny_file_shows_zero_witness :
  (size (mkFile "a.csv" 5 "text/csv") <= 5)%N /\
  Part000.showFile (Some (mkFile "a.csv" 5 "text/csv")) Part000.fresh =
    (Part000.set_innerHTML "<strong>a.csv</strong> (0.00 KB)" Part000.fresh, Part000.Normal).
Proof.
  split; [cbn; lia|].
  exact (variant_tiny_file_shows_zero (mkFile "a.csv" 5 "text/csv") Part000.fresh
           ltac:(cbn; lia)).
Defined.

Lemma round2_multiple (n d : N) : (0 < d)%N -> round2 (d * n) d = (100 * n)%N.
Proof.
  intros Hd. unfold round2. symmetry. apply (N.div_unique _ _ _ d); lia.
Qed.

Lemma toFixed2_multiple (n d : N) : (0 < d)%N -> toFixed2 (d * n) d = dec n +:+ ".00".
Proof.
  intros Hd. unfold toFixed2. rewrite round2_multiple by exact Hd. cbv zeta.
  replace ((100 * n) / 100)%N with n by (rewrite N.mul_comm, N.div_mul; [reflexivity|discriminate]).
  replace ((100 * n) mod 100)%N with 0%N
    by (symmetry; rewrite N.mul_comm; apply N.Div0.mod_mul).
  replace ((100 * n) mod 10)%N with 0%N
    by (symmetry; replace (100 * n)%N with (10 * n * 10)%N by lia; apply N.Div0.mod_mul).
  reflexivity.
Qed.

(** X20.  The two scripts print the same size differently.  For a file of n KiB,
    0 < n < 1024, [script.js] shows "n KB" while the variant shows
    "n.00 KB". *)
Theorem scripts_differ_on_whole_kilobytes (n : N) (fname ftype : string)
    (st : Script.Page) (st0 : Part000.Page) :
  (0 < n)%N -> (n < 1024)%N ->
  let f := mkFile fname (1024 * n) ftype in
  Script.props (Script.updateFileInfo f st) !! "fileSize.textContent" =
    Some (dec n +:+ " KB") /\
  Part000.showFile (Some f) st0 =
    (Part000.set_innerHTML ("<strong>" +:+ fname +:+ "</strong> (" +:+ (dec n +:+ ".00")
                              +:+ " KB)") st0,
     Part000.Normal).
Proof.
  intros Hpos Hlt. cbv zeta. split.
  - unfold Script.updateFileInfo. cbn [size name].
    assert (Hfmt : formatFileSize (1024 * n) = dec n +:+ " KB").
    { unfold formatFileSize. destruct (N.eqb_spec (1024 * n) 0) as [Hz | _]; [lia|].
      cbv zeta. rewrite (floor_log_k_unique (1024 * n) 1)
        by (change (k ^ 1)%N with 1024%N; change (k ^ (1 + 1))%N with 1048576%N; lia).
      change (k ^ 1)%N with 1024%N. rewrite round2_multiple by lia.
      rewrite number_to_string_whole. reflexivity. }
    rewrite Hfmt. cbn. by simplify_map_eq.
  - unfold Part000.showFile. cbn [size name]. by rewrite toFixed2_multiple by lia.
Qed.

Lemma scripts_differ_on_whole_kilobytes_witness :
  (0 < 2)%N /\ (2 < 1024)%N /\
  Script.props (Script.updateFileInfo (mkFile "sample.csv" (1024 * 2) "text/csv")
                  (Script.fresh [])) !! "fileSize.textContent" = Some "2 KB" /\
  Part000.showFile (Some (mkFile "sample.csv" (1024 * 2) "text/csv")) Part000.fresh =
    (Part000.set_innerHTML "<strong>sample.csv</strong> (2.00 KB)" Part000.fresh,
     Part000.Normal).
Proof.
  split; [lia|]. split; [lia|].
  exact (scripts_differ_on_whole_kilobytes 2 "sample.csv" "text/csv"
           (Script.fresh []) Part000.fresh ltac:(lia) ltac:(lia)).
Defined.
